(** * A shallow embedding of the Spotify proxy server (server.js)

    The server is an Express application made of one OAuth callback
    handler and nine pass-through handlers.  Every handler reads a request,
    performs at most one outbound [axios] call and writes one response.

    The development has three layers:
    - [JS]: the fragment of the ECMAScript runtime the handlers rely on
      (strings, IEEE-754 numbers, the abstract conversions [ToBoolean],
      [ToString], [ToNumber], [Math.floor], [encodeURIComponent], ...);
    - [Runtime]: the effects of a handler (the Express response object, the
      console, outbound calls through axios) as a state-and-exception monad;
    - [Server]: the handlers themselves, transcribed statement by statement.

    JavaScript strings are represented by the bytes of their UTF-8 encoding. *)

From Stdlib Require Import ZArith List String Ascii Bool Lia.
From Stdlib Require Import Floats.SpecFloat.
Import ListNotations.

Local Open Scope string_scope.
Local Open Scope Z_scope.

Module JS.

(** ** Values *)

(** A JavaScript number is a binary64 float; [spec_float] is the Standard
    Library's inductive description of IEEE-754 values. *)
Definition number := spec_float.

Definition prec : Z := 53.
Definition emax : Z := 1024.

#[local] Set Warnings "-register-all".

(** The values that reach the handlers: [undefined] (a property that is not
    there) and whatever [JSON.parse] or the query-string parser can build. *)
Inductive jsval : Type :=
| JUndefined
| JNull
| JBool (b : bool)
| JNum (x : number)
| JStr (s : string)
| JArr (items : list jsval)
| JObj (fields : list (string * jsval)).

(** What a [throw] carries.  [AxiosError] is the rejection of an axios
    promise: it has a [message] and, when the upstream answered at all, a
    [response] with its status code and parsed body. *)
Inductive exn : Type :=
| TypeError (message : string)
| AxiosError (message : string) (response : option (Z * jsval)).

Inductive completion (A : Type) : Type :=
| Normal (a : A)
| Throw (e : exn).
Arguments Normal {A} a.
Arguments Throw {A} e.

(** Property access [o.k] on an object built from data (listed by its own
    properties, each name once): the own property when there is one,
    [undefined] otherwise. *)
Fixpoint lookup (k : string) (fields : list (string * jsval)) : jsval :=
  match fields with
  | [] => JUndefined
  | (k', v) :: rest => if String.eqb k k' then v else lookup k rest
  end.

Definition has_key (k : string) (fields : list (string * jsval)) : bool :=
  existsb (fun kv => String.eqb k (fst kv)) fields.

Definition get (o : jsval) (k : string) : jsval :=
  match o with
  | JObj fields => lookup k fields
  | _ => JUndefined
  end.

(** ** Strings *)

(** [strip_prefix p s] is [Some rest] when [s = p ++ rest]. *)
Fixpoint strip_prefix (p s : string) : option string :=
  match p, s with
  | EmptyString, _ => Some s
  | String a p', String b s' =>
      if Ascii.eqb a b then strip_prefix p' s' else None
  | String _ _, EmptyString => None
  end.

(** [String.prototype.replace(pattern, replacement)] with a string pattern:
    only the first occurrence, wherever it is, is replaced.  (The
    replacement strings used by the server contain no [$] pattern.) *)
Fixpoint replace (pattern replacement s : string) : string :=
  match strip_prefix pattern s with
  | Some rest => replacement ++ rest
  | None =>
      match s with
      | EmptyString => EmptyString
      | String c s' => String c (replace pattern replacement s')
      end
  end.

(** [String.prototype.includes(search)]. *)
Fixpoint includes (s search : string) : bool :=
  match strip_prefix search s with
  | Some _ => true
  | None =>
      match s with
      | EmptyString => false
      | String _ s' => includes s' search
      end
  end.

(** ** Numbers *)

Definition NaN : number := S754_nan.
Definition pos_zero : number := S754_zero false.

(** The Number value of the integer [z]. *)
Definition number_of_Z (z : Z) : number := binary_normalize prec emax z 0 false.

(** The Number value (round to nearest, ties to even) of the decimal
    [digits * 10^exp10], negated when [neg]; this is how a JSON or string
    numeric literal becomes a number. *)
Definition number_of_decimal (neg : bool) (digits : Z) (exp10 : Z) : number :=
  match digits with
  | Zpos d =>
      if 0 <=? exp10
      then binary_round prec emax neg (d * Z.to_pos (10 ^ exp10)) 0
      else
        let '(q, e, l) :=
          SFdiv_core_binary prec emax (Zpos d) 0 (10 ^ (- exp10)) 0 in
        binary_round_aux prec emax neg q e l
  | _ => S754_zero neg
  end.

(** [Math.floor]: the greatest integer below the argument, as a number.
    A finite value is [(-1)^s * m * 2^e]; shifting right by [-e] bits is the
    floor of the division by [2^(-e)].  The floor of a value in [(-0, 1)]
    is [+0] and [Math.floor(-0)] is [-0]. *)
Definition floor_Z (s : bool) (m : positive) (e : Z) : Z :=
  Z.shiftl (if s then Zneg m else Zpos m) e.

Definition Math_floor (x : number) : number :=
  match x with
  | S754_finite s m e => number_of_Z (floor_Z s m e)
  | _ => x
  end.

(** [Math.trunc]: the integral part, rounding toward zero. *)
Definition trunc_Z (s : bool) (m : positive) (e : Z) : Z :=
  let a := Z.shiftl (Zpos m) e in if s then - a else a.

Definition Math_trunc (x : number) : number :=
  match x with
  | S754_finite s m e => binary_normalize prec emax (trunc_Z s m e) 0 s
  | _ => x
  end.

(** *** Number::toString

    The decimal digits of a positive number are the shortest digit string
    [s] (of [k] digits, scaled by [10^(n-k)]) that reads back as the same
    binary64 value, and among those the one closest to it. *)

Definition digit_char (d : Z) : ascii := ascii_of_N (48 + Z.to_N d).

Fixpoint decimal_fuel (fuel : nat) (z : Z) (acc : string) : string :=
  match fuel with
  | O => acc
  | S f =>
      let acc' := String (digit_char (z mod 10)) acc in
      if z <? 10 then acc' else decimal_fuel f (z / 10) acc'
  end.

(** The decimal numeral of a natural number. *)
Definition decimal (z : Z) : string :=
  decimal_fuel (S (Z.to_nat (Z.log2 z))) z EmptyString.

Definition decimal_length (z : Z) : Z := Z.of_nat (String.length (decimal z)).

(** [magnitude m e] is the [n] with [10^(n-1) <= m * 2^e < 10^n]. *)
Definition magnitude (m : positive) (e : Z) : Z :=
  if 0 <=? e then decimal_length (Z.shiftl (Zpos m) e)
  else
    let d := 2 ^ (- e) in
    if d <=? Zpos m then decimal_length (Zpos m / d)
    else 1 - decimal_length ((d - 1) / Zpos m).

Definition ceil_div (a b : Z) : Z := - ((- a) / b).

Record digits : Type := { dg_s : Z; dg_k : Z; dg_n : Z }.

(** The value [m * 2^e] (a canonical binary64 value) in decimal terms: its
    magnitude [fr_N] and, scaled by [fr_B * 10^fr_J] so that they are
    integers, the value itself ([fr_X]) and the ends [fr_LO], [fr_HI] of the
    interval of reals that round to it. *)
Record frame : Type :=
  { fr_m : positive; fr_N : Z; fr_J : Z; fr_B : Z;
    fr_X : Z; fr_LO : Z; fr_HI : Z }.

Definition frame_of (m : positive) (e : Z) : frame :=
  let N := magnitude m e in
  let J := Z.max 0 (18 - N) in
  let h := 2 ^ Z.max 0 e * 10 ^ J in
  let X := 4 * Zpos m * h in
  let below := if (Zpos m =? 2 ^ (prec - 1)) && (emin prec emax <? e)
               then h else 2 * h in
  let closed := Z.even (Zpos m) in
  {| fr_m := m; fr_N := N; fr_J := J;
     fr_B := 4 * 2 ^ Z.max 0 (- e);
     fr_X := X;
     fr_LO := if closed then X - below else X - below + 1;
     fr_HI := if closed then X + 2 * h else X + 2 * h - 1 |}.

(** The best [k]-digit candidate of magnitude [n], with its distance to the
    value. *)
Definition candidate (f : frame) (k n : Z) : option (Z * digits) :=
  let U := 10 ^ (n - k + fr_J f) * fr_B f in
  let smin := Z.max (10 ^ (k - 1)) (ceil_div (fr_LO f) U) in
  let smax := Z.min (10 ^ k - 1) (fr_HI f / U) in
  if smin <=? smax then
    let q := fr_X f / U in
    let r := fr_X f mod U in
    let near := if 2 * r <? U then q
                else if U <? 2 * r then q + 1
                else if Z.even q then q else q + 1 in
    let s := Z.max smin (Z.min smax near) in
    Some (Z.abs (s * U - fr_X f), {| dg_s := s; dg_k := k; dg_n := n |})
  else None.

Definition closer (a b : option (Z * digits)) : option (Z * digits) :=
  match a, b with
  | None, _ => b
  | _, None => a
  | Some (da, ra), Some (db, rb) =>
      if da <? db then a
      else if db <? da then b
      else if Z.even (dg_s ra) then a else b
  end.

Fixpoint search (f : frame) (fuel : nat) (k : Z) : digits :=
  match fuel with
  | O => {| dg_s := Zpos (fr_m f); dg_k := decimal_length (Zpos (fr_m f));
            dg_n := fr_N f |}
  | S fuel' =>
      match closer (candidate f k (fr_N f - 1))
              (closer (candidate f k (fr_N f)) (candidate f k (fr_N f + 1))) with
      | Some (_, r) => r
      | None => search f fuel' (k + 1)
      end
  end.

Definition shortest (m : positive) (e : Z) : digits :=
  search (frame_of m e) 17 1.

Fixpoint zeros (n : nat) : string :=
  match n with O => EmptyString | S n' => String "0" (zeros n') end.

Definition exponent_suffix (n : Z) : string :=
  "e" ++ (if 0 <=? n - 1 then "+" else "-") ++ decimal (Z.abs (n - 1)).

(** The layout rules of Number::toString for the digits [s], [k], [n]. *)
Definition layout (d : digits) : string :=
  let ds := decimal (dg_s d) in
  let k := dg_k d in
  let n := dg_n d in
  if (k <=? n) && (n <=? 21) then ds ++ zeros (Z.to_nat (n - k))
  else if (0 <? n) && (n <=? 21) then
    substring 0 (Z.to_nat n) ds ++ "." ++
    substring (Z.to_nat n) (Z.to_nat (k - n)) ds
  else if (-6 <? n) && (n <=? 0) then "0." ++ zeros (Z.to_nat (- n)) ++ ds
  else if k =? 1 then ds ++ exponent_suffix n
  else substring 0 1 ds ++ "." ++ substring 1 (Z.to_nat (k - 1)) ds
       ++ exponent_suffix n.

Definition Number_toString (x : number) : string :=
  match x with
  | S754_nan => "NaN"
  | S754_zero _ => "0"
  | S754_infinity s => if s then "-Infinity" else "Infinity"
  | S754_finite s m e =>
      (if s then "-" else "") ++ layout (shortest m e)
  end.

(** *** StringToNumber *)

Definition bytes (l : list N) : string :=
  fold_right (fun n s => String (ascii_of_N n) s) EmptyString l.

(** The white space and line terminators that [StringToNumber] ignores
    around a literal (TAB, LF, VT, FF, CR, SP, U+00A0, U+1680, U+2000 to
    U+200A, U+2028, U+2029, U+202F, U+205F, U+3000, U+FEFF), in UTF-8. *)
Definition white_space : list string :=
  map bytes
    (([ [9]; [10]; [11]; [12]; [13]; [32]; [194; 160]; [225; 154; 128] ]
        : list (list N))
     ++ map (fun b => [226; 128; b])
          [128; 129; 130; 131; 132; 133; 134; 135; 136; 137; 138;
           168; 169; 175]
     ++ [ [226; 129; 159]; [227; 128; 128]; [239; 187; 191] ])%list%N.

Fixpoint strip_any (ps : list string) (s : string) : option string :=
  match ps with
  | [] => None
  | p :: ps' =>
      match strip_prefix p s with
      | Some rest => Some rest
      | None => strip_any ps' s
      end
  end.

Fixpoint strip_all (ps : list string) (fuel : nat) (s : string) : string :=
  match fuel with
  | O => s
  | S f =>
      match strip_any ps s with
      | Some rest => strip_all ps f rest
      | None => s
      end
  end.

Fixpoint rev_append (s acc : string) : string :=
  match s with
  | EmptyString => acc
  | String c s' => rev_append s' (String c acc)
  end.

Definition rev (s : string) : string := rev_append s EmptyString.

Definition trim (s : string) : string :=
  let s1 := strip_all white_space (String.length s) s in
  rev (strip_all (map rev white_space) (String.length s1) (rev s1)).

Definition digit_value (base : Z) (c : ascii) : option Z :=
  let n := Z.of_N (N_of_ascii c) in
  let v := if (48 <=? n) && (n <=? 57) then n - 48
           else if (97 <=? n) && (n <=? 102) then n - 87
           else if (65 <=? n) && (n <=? 70) then n - 55
           else 16 in
  if v <? base then Some v else None.

(** Reads the longest run of digits in front of [s]: the value read on top
    of [acc], the number of digits on top of [count], and what follows. *)
Fixpoint read_digits (base : Z) (s : string) (acc count : Z)
  : Z * Z * string :=
  match s with
  | String c s' =>
      match digit_value base c with
      | Some v => read_digits base s' (acc * base + v) (count + 1)
      | None => (acc, count, s)
      end
  | EmptyString => (acc, count, s)
  end.

(** What follows the mantissa: nothing, or a complete exponent part. *)
Definition read_exponent (s : string) : option Z :=
  match s with
  | EmptyString => Some 0
  | String c r =>
      if Ascii.eqb c "e" || Ascii.eqb c "E" then
        let '(neg, r') :=
          match r with
          | String "+" t => (false, t)
          | String "-" t => (true, t)
          | _ => (false, r)
          end in
        let '(v, count, rest) := read_digits 10 r' 0 0 in
        if (0 <? count) && String.eqb rest "" then Some (if neg then - v else v)
        else None
      else None
  end.

Definition unsigned_decimal (neg : bool) (s : string) : number :=
  if String.eqb s "Infinity" then S754_infinity neg
  else
    let '(i, ni, r1) := read_digits 10 s 0 0 in
    let '(f, nf, r2) :=
      match r1 with
      | String "." t => read_digits 10 t i 0
      | _ => (i, 0, r1)
      end in
    if ni + nf =? 0 then NaN
    else
      match read_exponent r2 with
      | Some x => number_of_decimal neg f (x - nf)
      | None => NaN
      end.

Definition non_decimal (base : Z) (s : string) : number :=
  let '(v, count, rest) := read_digits base s 0 0 in
  if (0 <? count) && String.eqb rest "" then number_of_Z v else NaN.

Definition StringToNumber (s : string) : number :=
  match trim s with
  | EmptyString => pos_zero
  | String "0" (String "x" r) | String "0" (String "X" r) => non_decimal 16 r
  | String "0" (String "o" r) | String "0" (String "O" r) => non_decimal 8 r
  | String "0" (String "b" r) | String "0" (String "B" r) => non_decimal 2 r
  | String "+" r => unsigned_decimal false r
  | String "-" r => unsigned_decimal true r
  | t => unsigned_decimal false t
  end.

(** ** Abstract conversions *)

Definition ToBoolean (v : jsval) : bool :=
  match v with
  | JUndefined | JNull => false
  | JBool b => b
  | JNum (S754_zero _) | JNum S754_nan => false
  | JNum _ => true
  | JStr s => negb (String.eqb s "")
  | JArr _ | JObj _ => true
  end.

(** [ToString].  An array is joined with commas, [null] and [undefined]
    items giving the empty string.  An object built from data inherits
    [Object.prototype.toString] unless it has an own [toString] property,
    which is then not callable: the conversion throws. *)
Fixpoint ToString (v : jsval) : completion string :=
  match v with
  | JUndefined => Normal "undefined"
  | JNull => Normal "null"
  | JBool b => Normal (if b then "true" else "false")
  | JNum x => Normal (Number_toString x)
  | JStr s => Normal s
  | JArr items =>
      (fix join (l : list jsval) : completion string :=
         match l with
         | [] => Normal ""
         | x :: rest =>
             match
               match x with
               | JUndefined | JNull => Normal ""
               | _ => ToString x
               end
             with
             | Throw e => Throw e
             | Normal sx =>
                 match rest with
                 | [] => Normal sx
                 | _ :: _ =>
                     match join rest with
                     | Throw e => Throw e
                     | Normal sr => Normal (sx ++ "," ++ sr)
                     end
                 end
             end
         end) items
  | JObj fields =>
      if has_key "toString" fields
      then Throw (TypeError "Cannot convert object to primitive value")
      else Normal "[object Object]"
  end.

Definition ToNumber (v : jsval) : completion number :=
  match v with
  | JUndefined => Normal NaN
  | JNull => Normal pos_zero
  | JBool b => Normal (if b then number_of_Z 1 else pos_zero)
  | JNum x => Normal x
  | JStr s => Normal (StringToNumber s)
  | JArr _ | JObj _ =>
      match ToString v with
      | Normal s => Normal (StringToNumber s)
      | Throw e => Throw e
      end
  end.

(** The method call [v.includes(search)] for a string [search]: the
    substring test on a string, membership on an array; no other value
    built from data has a callable [includes]. *)
Definition call_includes (v : jsval) (search : string) : completion bool :=
  match v with
  | JStr s => Normal (includes s search)
  | JArr items =>
      Normal (existsb (fun x => match x with
                                | JStr s => String.eqb s search
                                | _ => false
                                end) items)
  | JUndefined | JNull =>
      Throw (TypeError "Cannot read properties of undefined")
  | JBool _ | JNum _ | JObj _ => Throw (TypeError "includes is not a function")
  end.

(** ** Percent-encoding *)

Definition hex_digit (d : N) : ascii :=
  if (d <? 10)%N then ascii_of_N (48 + d) else ascii_of_N (55 + d).

Definition percent (c : ascii) : string :=
  let n := N_of_ascii c in
  String "%" (String (hex_digit (n / 16)) (String (hex_digit (n mod 16)) "")).

Definition is_alnum (c : ascii) : bool :=
  let n := N_of_ascii c in
  ((48 <=? n) && (n <=? 57) || (65 <=? n) && (n <=? 90)
   || (97 <=? n) && (n <=? 122))%N.

Definition is_one_of (set : string) (c : ascii) : bool :=
  existsb (Ascii.eqb c) (list_ascii_of_string set).

Fixpoint encode_with (keep : ascii -> bool) (special : ascii -> option string)
    (s : string) : string :=
  match s with
  | EmptyString => EmptyString
  | String c s' =>
      (match special c with
       | Some r => r
       | None => if keep c then String c "" else percent c
       end) ++ encode_with keep special s'
  end.

(** [encodeURIComponent]: every byte of the UTF-8 encoding is escaped except
    letters, digits and [- _ . ! ~ * ' ( )]. *)
Definition encodeURIComponent (s : string) : string :=
  encode_with (fun c => is_alnum c || is_one_of "-_.!~*'()" c)
    (fun _ => None) s.

(** The [application/x-www-form-urlencoded] serializer of [URLSearchParams]:
    letters, digits and [* - . _] are kept, a space becomes [+]. *)
Definition form_urlencode (s : string) : string :=
  encode_with (fun c => is_alnum c || is_one_of "*-._" c)
    (fun c => if Ascii.eqb c " " then Some "+" else None) s.

Fixpoint join_with (sep : string) (l : list string) : string :=
  match l with
  | [] => EmptyString
  | [x] => x
  | x :: rest => x ++ sep ++ join_with sep rest
  end.

(** [URLSearchParams]: an ordered list of name-value pairs. *)
Definition URLSearchParams := list (string * string).

Definition URLSearchParams_toString (p : URLSearchParams) : string :=
  join_with "&"
    (map (fun kv => form_urlencode (fst kv) ++ "=" ++ form_urlencode (snd kv)) p).

Definition is_finite (x : number) : bool :=
  match x with
  | S754_zero _ | S754_finite _ _ _ => true
  | _ => false
  end.

(** [querystring.stringify]: a string, finite number or boolean value is
    escaped, an array gives one pair per item, anything else (nested
    objects included) gives an empty value. *)
Definition encodeStringified (v : jsval) : string :=
  match v with
  | JStr s => encodeURIComponent s
  | JNum x => if is_finite x then encodeURIComponent (Number_toString x) else ""
  | JBool b => if b then "true" else "false"
  | _ => ""
  end.

Definition querystring_stringify (fields : list (string * jsval)) : string :=
  join_with "&"
    (flat_map
       (fun kv =>
          let ks := encodeURIComponent (fst kv) ++ "=" in
          match snd kv with
          | JArr items => map (fun v => ks ++ encodeStringified v) items
          | v => [ks ++ encodeStringified v]
          end) fields).

(** ** Base64 ([Buffer.from(s).toString('base64')]) *)

Definition base64_alphabet : string :=
  "ABCDEFGHIJKLMNOPQRSTUVWXYZabcdefghijklmnopqrstuvwxyz0123456789+/".

Definition base64_char (n : N) : ascii :=
  match String.get (N.to_nat n) base64_alphabet with
  | Some c => c
  | None => "="%char
  end.

Fixpoint base64_groups (l : list N) : string :=
  match l with
  | a :: b :: c :: rest =>
      String (base64_char (a / 4))
        (String (base64_char ((a mod 4) * 16 + b / 16))
           (String (base64_char ((b mod 16) * 4 + c / 64))
              (String (base64_char (c mod 64)) (base64_groups rest))))
  | [a; b] =>
      String (base64_char (a / 4))
        (String (base64_char ((a mod 4) * 16 + b / 16))
           (String (base64_char ((b mod 16) * 4)) "="))
  | [a] =>
      String (base64_char (a / 4)) (String (base64_char ((a mod 4) * 16)) "==")
  | [] => EmptyString
  end%N.

Definition base64 (s : string) : string :=
  base64_groups (map N_of_ascii (list_ascii_of_string s)).

End JS.

(** * Effects of a handler *)

Module Runtime.
Import JS.

Inductive method : Type := GET | POST | PUT.

(** One outbound HTTP call, as handed to axios. *)
Record upstream_call : Type :=
  { uc_method : method;
    uc_url : string;
    uc_data : option jsval;
    uc_headers : list (string * string) }.

(** How the outside world settles a call: an HTTP answer (status code and
    parsed body) or none at all (DNS failure, refused connection, ...). *)
Inductive settlement : Type :=
| Reply (status : Z) (data : jsval)
| NoReply (message : string).

(** What Express sends back: [res.json(body)], with the status code set so
    far, or [res.redirect(url)], a 302 to the URL it is given. *)
Inductive sent : Type :=
| SentJson (status : Z) (body : jsval)
| SentRedirect (status : Z) (location : string).

Inductive console_entry : Type :=
| Log (args : list jsval)
| Error (args : list jsval).

Record world : Type :=
  { upstream : upstream_call -> settlement;
    calls : list upstream_call;
    statusCode : Z;
    responses : list sent;
    console : list console_entry }.

(** A fresh request: nothing called, nothing sent, status 200. *)
Definition initial (up : upstream_call -> settlement) : world :=
  {| upstream := up; calls := []; statusCode := 200; responses := [];
     console := [] |}.

(** Computations that read and write the world and may throw; the effects
    performed before a [throw] stay. *)
Definition M (A : Type) : Type := world -> completion A * world.

Definition ret {A} (a : A) : M A := fun w => (Normal a, w).

Definition bind {A B} (c : M A) (k : A -> M B) : M B :=
  fun w =>
    match c w with
    | (Normal a, w') => k a w'
    | (Throw e, w') => (Throw e, w')
    end.

Definition throw {A} (e : exn) : M A := fun w => (Throw e, w).

Definition lift {A} (c : completion A) : M A := fun w => (c, w).

(** [try { body } catch (error) { handler }]. *)
Definition try_catch {A} (body : M A) (handler : exn -> M A) : M A :=
  fun w =>
    match body w with
    | (Normal a, w') => (Normal a, w')
    | (Throw e, w') => handler e w'
    end.

Declare Scope js_scope.
Delimit Scope js_scope with js.
Notation "x <- c ;; k" := (bind c (fun x => k))
  (at level 61, c at next level, right associativity) : js_scope.
Notation "c ;; k" := (bind c (fun _ => k))
  (at level 61, right associativity) : js_scope.
Local Open Scope js_scope.

(** ** The console *)

Definition console_log (args : list jsval) : M unit :=
  fun w =>
    (Normal tt,
     {| upstream := upstream w; calls := calls w; statusCode := statusCode w;
        responses := responses w; console := console w ++ [Log args] |}).

Definition console_error (args : list jsval) : M unit :=
  fun w =>
    (Normal tt,
     {| upstream := upstream w; calls := calls w; statusCode := statusCode w;
        responses := responses w; console := console w ++ [Error args] |}).

(** ** The Express response object *)

Definition res_status (code : Z) : M unit :=
  fun w =>
    (Normal tt,
     {| upstream := upstream w; calls := calls w; statusCode := code;
        responses := responses w; console := console w |}).

(** [res.json(body)] sends [JSON.stringify(body)], in which a property
    whose value is [undefined] is left out. *)
Definition res_json (body : jsval) : M unit :=
  fun w =>
    (Normal tt,
     {| upstream := upstream w; calls := calls w; statusCode := statusCode w;
        responses := responses w ++ [SentJson (statusCode w) body];
        console := console w |}).

Definition res_redirect (url : string) : M unit :=
  fun w =>
    (Normal tt,
     {| upstream := upstream w; calls := calls w; statusCode := 302;
        responses := responses w ++ [SentRedirect 302 url];
        console := console w |}).

(** ** axios *)

(** The handlers give axios no [validateStatus] option, so its default
    applies: the promise resolves for a 2xx answer and rejects for every
    other one. *)
Definition validateStatus (status : Z) : bool :=
  (200 <=? status) && (status <? 300).

(** [await axios(...)]: the call is issued once; a 2xx answer is the
    response (status and data), anything else is thrown as an
    [AxiosError], with the answer attached when there is one. *)
Definition axios (c : upstream_call) : M (Z * jsval) :=
  fun w =>
    let w' :=
      {| upstream := upstream w; calls := calls w ++ [c];
         statusCode := statusCode w; responses := responses w;
         console := console w |} in
    match upstream w c with
    | Reply status data =>
        if validateStatus status then (Normal (status, data), w')
        else
          (Throw (AxiosError
                    ("Request failed with status code "
                     ++ Number_toString (number_of_Z status))
                    (Some (status, data))), w')
    | NoReply message => (Throw (AxiosError message None), w')
    end.

Definition axios_get (url : string) (headers : list (string * string))
  : M (Z * jsval) :=
  axios {| uc_method := GET; uc_url := url; uc_data := None;
           uc_headers := headers |}.

Definition axios_post (url : string) (data : jsval)
    (headers : list (string * string)) : M (Z * jsval) :=
  axios {| uc_method := POST; uc_url := url; uc_data := Some data;
           uc_headers := headers |}.

Definition axios_put (url : string) (data : jsval)
    (headers : list (string * string)) : M (Z * jsval) :=
  axios {| uc_method := PUT; uc_url := url; uc_data := Some data;
           uc_headers := headers |}.

(** [response.data] *)
Definition data (response : Z * jsval) : jsval := snd response.

(** [error.response?.status], [error.response?.data], [error.message] *)
Definition error_status (error : exn) : option Z :=
  match error with
  | AxiosError _ (Some (status, _)) => Some status
  | _ => None
  end.

Definition error_data (error : exn) : jsval :=
  match error with
  | AxiosError _ (Some (_, d)) => d
  | _ => JUndefined
  end.

Definition error_message (error : exn) : string :=
  match error with
  | AxiosError m _ => m
  | TypeError m => m
  end.

(** [error.response?.status || dflt]: a missing status, or the falsy
    status [0], gives the default. *)
Definition status_or (status : option Z) (dflt : Z) : Z :=
  match status with
  | Some s => if s =? 0 then dflt else s
  | None => dflt
  end.

(** ** Expressions *)

(** [a || b] on values. *)
Definition or_else (a b : jsval) : jsval := if ToBoolean a then a else b.

(** [o?.f()] on an optional string. *)
Definition optional_call (o : option string) (f : string -> string) : jsval :=
  match o with
  | Some s => JStr (f s)
  | None => JUndefined
  end.

Definition is_undefined (v : jsval) : bool :=
  match v with JUndefined => true | _ => false end.

(** A template literal: every part is converted with [ToString], from left
    to right, and the results are concatenated. *)
Fixpoint template_string (parts : list jsval) : completion string :=
  match parts with
  | [] => Normal ""
  | p :: rest =>
      match ToString p with
      | Throw e => Throw e
      | Normal s =>
          match template_string rest with
          | Throw e => Throw e
          | Normal r => Normal (s ++ r)
          end
      end
  end.

Definition template (parts : list jsval) : M string :=
  lift (template_string parts).

(** [const { k } = v]: reading a property of [null] or [undefined] throws;
    a value that is not an object has no such property. *)
Definition destructure (v : jsval) (k : string) : M jsval :=
  match v with
  | JUndefined | JNull =>
      throw (TypeError "Cannot destructure property of undefined or null")
  | _ => ret (get v k)
  end.

(** [new URLSearchParams({ k: v })] and [params.append(k, v)]: the value is
    converted to a string. *)
Definition new_URLSearchParams (k : string) (v : jsval) : M URLSearchParams :=
  s <- lift (ToString v) ;; ret [(k, s)].

Definition URLSearchParams_append (p : URLSearchParams) (k : string)
    (v : jsval) : M URLSearchParams :=
  s <- lift (ToString v) ;; ret (p ++ [(k, s)])%list.

(** [Math.floor(v)] on an arbitrary value. *)
Definition floor (v : jsval) : M jsval :=
  x <- lift (ToNumber v) ;; ret (JNum (Math_floor x)).

End Runtime.

(** * The server *)

Module Server.
Import JS Runtime.
Local Open Scope js_scope.

(** The configuration read from the environment when the process starts. *)
Record config : Type :=
  { CLIENT_ID : string;
    CLIENT_SECRET : string;
    REDIRECT_URI : string;
    FRONTEND_URL : string }.

(** [process.env.X || dflt]: an unset or empty variable gives the default. *)
Definition env_or (v : option string) (dflt : string) : string :=
  match v with
  | Some s => if String.eqb s "" then dflt else s
  | None => dflt
  end.

(** Start-up: the process exits when a credential is missing. *)
Definition load_config (env : string -> option string) : option config :=
  let id := env_or (env "SPOTIFY_CLIENT_ID") "" in
  let secret := env_or (env "SPOTIFY_CLIENT_SECRET") "" in
  if String.eqb id "" || String.eqb secret "" then None
  else
    Some {| CLIENT_ID := id;
            CLIENT_SECRET := secret;
            REDIRECT_URI :=
              env_or (env "REDIRECT_URI") "http://localhost:3000/callback";
            FRONTEND_URL :=
              env_or (env "FRONTEND_URL") "http://localhost:3000" |}.

(** An incoming request, after the query-string parser and
    [express.json()] have run: [req.headers.authorization] when the header
    is there, the properties of [req.query], and the value of [req.body].
    That value is the parsed JSON body when there is one.  When the request
    has no JSON body it depends on the version of Express, which the
    sources do not fix: the empty object [{}] (Express 4) or [undefined]
    (Express 5). *)
Record request : Type :=
  { authorization : option string;
    query : list (string * jsval);
    body : jsval }.

Definition success : jsval := JObj [("success", JBool true)].

Section Handlers.
Variable cfg : config.

(** [app.get('/', ...)]: the health check. *)
Definition health (req : request) : M unit :=
  res_json (JObj [("status", JStr "✅ Spotify API Backend Running");
                  ("redirect_uri", JStr (REDIRECT_URI cfg));
                  ("frontend_url", JStr (FRONTEND_URL cfg))]).

(** [app.get('/api/auth', ...)]: the authorization URL, as data. *)
Definition auth (req : request) : M unit :=
  let scope := "user-read-playback-state user-modify-playback-state user-read-currently-playing playlist-read-private user-library-read streaming user-read-email user-read-private" in
  let auth_url :=
    "https://accounts.spotify.com/authorize?" ++
    querystring_stringify
      [("response_type", JStr "code");
       ("client_id", JStr (CLIENT_ID cfg));
       ("scope", JStr scope);
       ("redirect_uri", JStr (REDIRECT_URI cfg));
       ("show_dialog", JBool false)] in
  console_log [JStr "📤 Sending auth URL"] ;;
  res_json (JObj [("auth_url", JStr auth_url)]).

(** [app.get('/callback', ...)] *)
Definition callback (req : request) : M unit :=
  let code := lookup "code" (query req) in
  let error := lookup "error" (query req) in
  if ToBoolean error then
    console_error [JStr "❌ Auth error:"; error] ;;
    url <- template [JStr (FRONTEND_URL cfg); JStr "/?error="; error] ;;
    res_redirect url
  else if negb (ToBoolean code) then
    console_error [JStr "❌ No code provided"] ;;
    url <- template [JStr (FRONTEND_URL cfg); JStr "/?error=no_code"] ;;
    res_redirect url
  else
    console_log [JStr "🔄 Exchanging code for token..."] ;;
    try_catch
      (response <-
         axios_post "https://accounts.spotify.com/api/token"
           (JStr (querystring_stringify
                    [("code", code);
                     ("redirect_uri", JStr (REDIRECT_URI cfg));
                     ("grant_type", JStr "authorization_code")]))
           [("Authorization",
             "Basic " ++ base64 (CLIENT_ID cfg ++ ":" ++ CLIENT_SECRET cfg));
            ("Content-Type", "application/x-www-form-urlencoded")] ;;
       access_token <- destructure (data response) "access_token" ;;
       refresh_token <- destructure (data response) "refresh_token" ;;
       expires_in <- destructure (data response) "expires_in" ;;
       console_log [JStr "✅ Token received, redirecting to frontend"] ;;
       params <- new_URLSearchParams "access_token" access_token ;;
       params <-
         (if ToBoolean refresh_token
          then URLSearchParams_append params "refresh_token" refresh_token
          else ret params) ;;
       url <- template [JStr (FRONTEND_URL cfg); JStr "/?";
                        JStr (URLSearchParams_toString params)] ;;
       res_redirect url)
      (fun error =>
         console_error [JStr "❌ Token exchange error:";
                        or_else (error_data error)
                          (JStr (error_message error))] ;;
         url <- template [JStr (FRONTEND_URL cfg);
                          JStr "/?error=auth_failed"] ;;
         res_redirect url).

(** The [catch] block shared, up to its messages, by the proxy handlers. *)
Definition relay_failure (label message : string) (error : exn) : M unit :=
  console_error [JStr label; error_data error] ;;
  res_status (status_or (error_status error) 500) ;;
  res_json (JObj [("error", JStr message); ("details", error_data error)]).

Definition no_token : M unit :=
  res_status 401 ;; res_json (JObj [("error", JStr "No token provided")]).

(** [app.get('/api/playlists', ...)] *)
Definition playlists (req : request) : M unit :=
  let token := optional_call (authorization req) (replace "Bearer " "") in
  if negb (ToBoolean token) then no_token
  else
    try_catch
      (bearer <- template [JStr "Bearer "; token] ;;
       response <-
         axios_get "https://api.spotify.com/v1/me/playlists?limit=50"
           [("Authorization", bearer)] ;;
       console_log [JStr "✅ Playlists fetched"] ;;
       res_json (data response))
      (relay_failure "❌ Playlists error:" "Failed to fetch playlists").

(** [app.get('/api/search', ...)] *)
Definition search (req : request) : M unit :=
  let token := optional_call (authorization req) (replace "Bearer " "") in
  let query := lookup "q" (query req) in
  if negb (ToBoolean token) then no_token
  else if negb (ToBoolean query) then
    res_status 400 ;;
    res_json (JObj [("error", JStr "No search query provided")])
  else
    try_catch
      (q <- lift (ToString query) ;;
       url <- template [JStr "https://api.spotify.com/v1/search?q=";
                        JStr (encodeURIComponent q);
                        JStr "&type=track,album,artist&limit=20"] ;;
       bearer <- template [JStr "Bearer "; token] ;;
       response <- axios_get url [("Authorization", bearer)] ;;
       console_log [JStr "✅ Search completed for:"; query] ;;
       res_json (data response))
      (relay_failure "❌ Search error:" "Search failed").

(** [app.post('/api/play', ...)] *)
Definition play (req : request) : M unit :=
  let token := optional_call (authorization req) (replace "Bearer " "") in
  uri <- destructure (body req) "uri" ;;
  if negb (ToBoolean token) then no_token
  else
    try_catch
      (body <-
         (if ToBoolean uri then
            track <- lift (call_includes uri "track:") ;;
            if track then ret (JObj [("uris", JArr [uri])])
            else ret (JObj [("context_uri", uri)])
          else ret (JObj [])) ;;
       bearer <- template [JStr "Bearer "; token] ;;
       axios_put "https://api.spotify.com/v1/me/player/play" body
         [("Authorization", bearer); ("Content-Type", "application/json")] ;;
       console_log [JStr "✅ Playback started"] ;;
       res_json success)
      (fun error =>
         console_error [JStr "❌ Play error:"; error_data error] ;;
         if match error_status error with
            | Some s => s =? 404
            | None => false
            end
         then
           res_status 404 ;;
           res_json
             (JObj [("error",
                     JStr "No active device found. Please open Spotify on a device first.");
                    ("details", error_data error)])
         else
           res_status (status_or (error_status error) 500) ;;
           res_json (JObj [("error", JStr "Playback failed");
                           ("details", error_data error)])).

(** [app.post('/api/pause', ...)] *)
Definition pause (req : request) : M unit :=
  let token := optional_call (authorization req) (replace "Bearer " "") in
  if negb (ToBoolean token) then no_token
  else
    try_catch
      (bearer <- template [JStr "Bearer "; token] ;;
       axios_put "https://api.spotify.com/v1/me/player/pause" (JObj [])
         [("Authorization", bearer)] ;;
       console_log [JStr "✅ Playback paused"] ;;
       res_json success)
      (relay_failure "❌ Pause error:" "Pause failed").

(** [app.post('/api/next', ...)] *)
Definition next (req : request) : M unit :=
  let token := optional_call (authorization req) (replace "Bearer " "") in
  if negb (ToBoolean token) then no_token
  else
    try_catch
      (bearer <- template [JStr "Bearer "; token] ;;
       axios_post "https://api.spotify.com/v1/me/player/next" (JObj [])
         [("Authorization", bearer)] ;;
       console_log [JStr "✅ Skipped to next track"] ;;
       res_json success)
      (relay_failure "❌ Next track error:" "Next track failed").

(** [app.post('/api/previous', ...)] *)
Definition previous (req : request) : M unit :=
  let token := optional_call (authorization req) (replace "Bearer " "") in
  if negb (ToBoolean token) then no_token
  else
    try_catch
      (bearer <- template [JStr "Bearer "; token] ;;
       axios_post "https://api.spotify.com/v1/me/player/previous" (JObj [])
         [("Authorization", bearer)] ;;
       console_log [JStr "✅ Went to previous track"] ;;
       res_json success)
      (relay_failure "❌ Previous track error:" "Previous track failed").

(** [app.get('/api/current', ...)] *)
Definition current (req : request) : M unit :=
  let token := optional_call (authorization req) (replace "Bearer " "") in
  if negb (ToBoolean token) then no_token
  else
    try_catch
      (bearer <- template [JStr "Bearer "; token] ;;
       response <- axios_get "https://api.spotify.com/v1/me/player"
                     [("Authorization", bearer)] ;;
       res_json (data response))
      (fun error =>
         (* 204 means no content (nothing playing) *)
         if match error_status error with
            | Some s => s =? 204
            | None => false
            end
         then
           res_json (JObj [("is_playing", JBool false);
                           ("item", JNull);
                           ("progress_ms", JNum pos_zero)])
         else
           relay_failure "❌ Current playback error:"
             "Failed to get playback state" error).

(** [app.post('/api/seek', ...)] *)
Definition seek (req : request) : M unit :=
  let token := optional_call (authorization req) (replace "Bearer " "") in
  position_ms <- destructure (body req) "position_ms" ;;
  if negb (ToBoolean token) then no_token
  else if is_undefined position_ms then
    res_status 400 ;; res_json (JObj [("error", JStr "No position provided")])
  else
    try_catch
      (floored <- floor position_ms ;;
       url <- template
                [JStr "https://api.spotify.com/v1/me/player/seek?position_ms=";
                 floored] ;;
       bearer <- template [JStr "Bearer "; token] ;;
       axios_put url (JObj []) [("Authorization", bearer)] ;;
       console_log [JStr "✅ Seeked to position:"; position_ms] ;;
       res_json success)
      (relay_failure "❌ Seek error:" "Seek failed").

(** [app.post('/api/volume', ...)] *)
Definition volume (req : request) : M unit :=
  let token := optional_call (authorization req) (replace "Bearer " "") in
  volume_percent <- destructure (body req) "volume_percent" ;;
  if negb (ToBoolean token) then no_token
  else if is_undefined volume_percent then
    res_status 400 ;; res_json (JObj [("error", JStr "No volume provided")])
  else
    try_catch
      (floored <- floor volume_percent ;;
       url <- template
                [JStr "https://api.spotify.com/v1/me/player/volume?volume_percent=";
                 floored] ;;
       bearer <- template [JStr "Bearer "; token] ;;
       axios_put url (JObj []) [("Authorization", bearer)] ;;
       console_log [JStr "✅ Volume set to:"; volume_percent] ;;
       res_json success)
      (relay_failure "❌ Volume error:" "Volume change failed").

(** The nine resource proxy routes. *)
Inductive endpoint : Type :=
| Playlists | Search | Play | Pause | Next | Previous | Current | Seek
| Volume.

Definition path (e : endpoint) : string :=
  match e with
  | Playlists => "/api/playlists"
  | Search => "/api/search"
  | Play => "/api/play"
  | Pause => "/api/pause"
  | Next => "/api/next"
  | Previous => "/api/previous"
  | Current => "/api/current"
  | Seek => "/api/seek"
  | Volume => "/api/volume"
  end.


Definition proxy (e : endpoint) : request -> M unit :=
  match e with
  | Playlists => playlists
  | Search => search
  | Play => play
  | Pause => pause
  | Next => next
  | Previous => previous
  | Current => current
  | Seek => seek
  | Volume => volume
  end.

(** Serving one request: the handler runs in a fresh world where the
    outside answers outbound calls as [up] says. *)
Definition serve (h : request -> M unit) (up : upstream_call -> settlement)
    (req : request) : completion unit * world :=
  h req (initial up).
End Handlers.

(** ** Vocabulary of the properties *)

(** What one served request did: the outbound calls it issued and the
    responses it sent, in order. *)
Definition outbound (o : completion unit * world) : list upstream_call :=
  calls (snd o).

Definition replies (o : completion unit * world) : list sent :=
  responses (snd o).

(** The bearer token of a request: what the handlers call [token], when it
    is there and not empty. *)
Definition bearer (req : request) : option string :=
  match authorization req with
  | Some h =>
      let t := replace "Bearer " "" h in
      if String.eqb t "" then None else Some t
  | None => None
  end.

Fixpoint header (name : string) (hs : list (string * string))
  : option string :=
  match hs with
  | [] => None
  | (k, v) :: rest => if String.eqb name k then Some v else header name rest
  end.

(** The token as the specification words it: the header value with the
    literal prefix stripped, the whole value when the prefix is absent. *)
Definition prefix_stripped (h : string) : string :=
  match strip_prefix "Bearer " h with
  | Some rest => rest
  | None => h
  end.

(** The message each route puts under [error] when its upstream call
    fails with the given status (if any). *)
Definition failure_message (e : endpoint) (status : option Z) : string :=
  match e with
  | Playlists => "Failed to fetch playlists"
  | Search => "Search failed"
  | Play =>
      match status with
      | Some s =>
          if s =? 404
          then "No active device found. Please open Spotify on a device first."
          else "Playback failed"
      | None => "Playback failed"
      end
  | Pause => "Pause failed"
  | Next => "Next track failed"
  | Previous => "Previous track failed"
  | Current => "Failed to get playback state"
  | Seek => "Seek failed"
  | Volume => "Volume change failed"
  end.

(** The two routes with a required numeric body field: the field, the
    upstream URL up to the value, and the message of the 400 rejection. *)
Inductive numeric_route : endpoint -> string -> string -> string -> Prop :=
| numeric_seek :
    numeric_route Seek "position_ms"
      "https://api.spotify.com/v1/me/player/seek?position_ms="
      "No position provided"
| numeric_volume :
    numeric_route Volume "volume_percent"
      "https://api.spotify.com/v1/me/player/volume?volume_percent="
      "No volume provided".

Definition is_negative (x : number) : bool :=
  match x with
  | S754_zero s | S754_infinity s | S754_finite s _ _ => s
  | S754_nan => false
  end.

(** The empty playback state of the specification. *)
Definition nothing_playing : jsval :=
  JObj [("is_playing", JBool false); ("item", JNull);
        ("progress_ms", JNum pos_zero)].

(** A configuration, requests and upstream behaviours to run the server
    on. *)
Definition local_config : config :=
  {| CLIENT_ID := "id"; CLIENT_SECRET := "secret";
     REDIRECT_URI := "http://localhost:3000/callback";
     FRONTEND_URL := "http://localhost:3000" |}.

Definition request_with (auth : option string) (q b : list (string * jsval))
  : request :=
  {| authorization := auth; query := q; body := JObj b |}.


(** The values a property can be read from: all but [undefined] and
    [null]. *)
Definition readable (v : jsval) : bool :=
  match v with
  | JUndefined | JNull => false
  | _ => true
  end.

(** The routes whose handler reads [req.body]. *)
Definition reads_body (e : endpoint) : bool :=
  match e with
  | Play | Seek | Volume => true
  | _ => false
  end.



Definition always (s : settlement) : upstream_call -> settlement :=
  fun _ => s.

(** Reading a percent-encoded component back, as the receiving side does:
    [%XY] is the byte with the hexadecimal digits [X] and [Y], every other
    character stands for itself. *)
Definition hex_value (c : ascii) : option N :=
  let n := N_of_ascii c in
  if ((48 <=? n) && (n <=? 57))%N then Some (n - 48)%N
  else if ((65 <=? n) && (n <=? 70))%N then Some (n - 55)%N
  else if ((97 <=? n) && (n <=? 102))%N then Some (n - 87)%N
  else None.

Fixpoint percent_decode (s : string) : option string :=
  match s with
  | EmptyString => Some EmptyString
  | String "%" (String h (String l rest)) =>
      match hex_value h, hex_value l, percent_decode rest with
      | Some a, Some b, Some r => Some (String (ascii_of_N (16 * a + b)) r)
      | _, _, _ => None
      end
  | String "%" _ => None
  | String c rest =>
      match percent_decode rest with
      | Some r => Some (String c r)
      | None => None
      end
  end.

(** The characters that separate or start the parts of a URL query. *)
Definition query_delimiters : list ascii :=
  list_ascii_of_string "&=?#/+ ".

End Server.

(** * Properties *)

Import JS Runtime Server.
Local Open Scope js_scope.

(** ** Running a handler symbolically *)

(** Unfolds the handlers and the monad, leaving the runtime primitives
    (conversions on unknown values, encoders, the upstream) in place. *)
Ltac run :=
  cbv beta iota zeta delta
    [serve proxy callback playlists search play pause next previous
     current seek volume no_token relay_failure outbound replies
     bind ret throw lift try_catch template
     new_URLSearchParams URLSearchParams_append floor
     console_log console_error res_status res_json res_redirect
     axios axios_get axios_post axios_put data initial];
  cbn [template_string ToString ToNumber ToBoolean negb is_undefined get
       optional_call error_status error_data error_message status_or
       or_else upstream calls statusCode responses console fst snd app].

Ltac norm :=
  cbn [template_string ToString ToNumber ToBoolean negb is_undefined get
       optional_call error_status error_data error_message status_or
       or_else upstream calls statusCode responses console fst snd app] in *.

(** Case analysis on an innermost scrutinee: a test or a conversion on a
    request value, or the settlement of the outbound call. *)
Ltac case_inner :=
  match goal with
  | |- context [match ?x with _ => _ end] =>
      lazymatch x with
      | context [match _ with _ => _ end] => fail
      | _ => destruct x eqn:?
      end
  | H : context [match ?x with _ => _ end] |- _ =>
      lazymatch x with
      | context [match _ with _ => _ end] => fail
      | _ => destruct x eqn:?
      end
  end.

Ltac cases := repeat (case_inner; norm).

(** Two equations on the settlement of the same call are merged. *)
Ltac settle up :=
  match goal with
  | H1 : up _ = _, H2 : up _ = _ |- _ =>
      let E := fresh "E" in
      pose proof (eq_trans (eq_sym H1) H2) as E; clear H2;
      first [discriminate E | injection E as <- <- | injection E as <-]
  end.


(** ** Facts about the runtime *)

Lemma append_empty (s : string) : s ++ "" = s.
Proof. induction s as [|c s IH]; [reflexivity | cbn; now rewrite IH]. Qed.

Lemma strip_prefix_app (p s : string) : strip_prefix p (p ++ s) = Some s.
Proof.
  induction p as [|c p IH]; cbn; [reflexivity|].
  now rewrite Ascii.eqb_refl.
Qed.

Lemma strip_prefix_sound (p s rest : string) :
  strip_prefix p s = Some rest -> s = p ++ rest.
Proof.
  revert s; induction p as [|c p IH]; intros [|d s]; cbn; try congruence.
  destruct (Ascii.eqb_spec c d) as [->|]; [|discriminate].
  intros H; now rewrite (IH _ H).
Qed.

(** A string that does not contain the pattern is left as it is. *)
Lemma replace_absent (pattern replacement s : string) :
  includes s pattern = false -> replace pattern replacement s = s.
Proof.
  induction s as [|c s IH]; cbn.
  - destruct (strip_prefix pattern ""); [discriminate | reflexivity].
  - destruct (strip_prefix pattern (String c s)); [discriminate|].
    intros H; now rewrite IH.
Qed.

(** A string that starts with the pattern loses that occurrence. *)
Lemma replace_prefix (pattern replacement s : string) :
  replace pattern replacement (pattern ++ s) = replacement ++ s.
Proof.
  destruct (pattern ++ s) eqn:E; cbn; rewrite <- E, strip_prefix_app;
    reflexivity.
Qed.

(** What [bearer] says about the handlers' [token]. *)
Lemma bearer_token (req : request) (t : string) :
  bearer req = Some t ->
  optional_call (authorization req) (replace "Bearer " "") = JStr t
  /\ t <> "".
Proof.
  unfold bearer, optional_call.
  destruct (authorization req) as [h|]; [|discriminate].
  destruct (String.eqb_spec (replace "Bearer " "" h) ""); [discriminate|].
  intros [= <-]; auto.
Qed.

Lemma is_undefined_false (v : jsval) :
  v <> JUndefined -> is_undefined v = false.
Proof. destruct v; [congruence | reflexivity..]. Qed.


Lemma destructure_readable (v : jsval) (k : string) :
  readable v = true -> destructure v k = ret (get v k).
Proof. destruct v; (discriminate || reflexivity). Qed.

Lemma destructure_unreadable (v : jsval) (k : string) :
  readable v = false ->
  destructure v k
  = throw (TypeError "Cannot destructure property of undefined or null").
Proof. destruct v; (discriminate || reflexivity). Qed.

Lemma get_readable (v : jsval) (k : string) :
  get v k <> JUndefined -> readable v = true.
Proof. destruct v; cbn; congruence. Qed.




Lemma replace_unfold (pattern replacement s : string) :
  replace pattern replacement s
  = match strip_prefix pattern s with
    | Some rest => replacement ++ rest
    | None =>
        match s with
        | EmptyString => EmptyString
        | String c s' => String c (replace pattern replacement s')
        end
    end.
Proof. destruct s; reflexivity. Qed.

(** Removing the pattern leaves nothing only from the empty string and
    from the pattern itself. *)
Lemma replace_to_empty (pattern s : string) :
  replace pattern "" s = "" <-> s = "" \/ s = pattern.
Proof.
  rewrite replace_unfold; split.
  - destruct (strip_prefix pattern s) as [rest|] eqn:E.
    + cbn [append]; intros ->; right.
      now rewrite (strip_prefix_sound _ _ _ E), append_empty.
    + destruct s; [auto | discriminate].
  - intros [->| ->].
    + destruct (strip_prefix pattern "") as [rest|] eqn:E; [|reflexivity].
      destruct pattern; [now injection E as <- | discriminate E].
    + pose proof (strip_prefix_app pattern "") as E.
      rewrite append_empty in E; now rewrite E.
Qed.

Lemma append_assoc (a b c : string) : (a ++ b) ++ c = a ++ b ++ c.
Proof. induction a as [|x a IH]; cbn; [reflexivity | now rewrite IH]. Qed.

(** ** What the encoders let through *)

Lemma chars_app (a b : string) :
  list_ascii_of_string (a ++ b)
  = (list_ascii_of_string a ++ list_ascii_of_string b)%list.
Proof. induction a as [|c a IH]; cbn; [reflexivity | now rewrite IH]. Qed.

(** An escape [%XY] is made of the percent sign and two letters or
    digits. *)
Lemma percent_chars (c ch : ascii) :
  In ch (list_ascii_of_string (percent c)) ->
  ch = "%"%char \/ is_alnum ch = true.
Proof.
  destruct c as [[] [] [] [] [] [] [] []]; intros H; cbv in H;
    destruct H as [<-|[<-|[<-|[]]]]; auto.
Qed.

(** Every character of an encoded string is kept as it is, comes from an
    escape, or comes from a special replacement. *)
Lemma encode_with_chars (keep : ascii -> bool)
    (special : ascii -> option string) (s : string) (ch : ascii) :
  In ch (list_ascii_of_string (encode_with keep special s)) ->
  keep ch = true \/ ch = "%"%char \/ is_alnum ch = true
  \/ exists c r, special c = Some r /\ In ch (list_ascii_of_string r).
Proof.
  induction s as [|c s IH]; cbn [encode_with]; [intros []|].
  rewrite chars_app, in_app_iff; intros [H|H]; [|auto]; revert H.
  destruct (special c) as [r|] eqn:Es.
  - intros H; right; right; right; exists c, r; auto.
  - destruct (keep c) eqn:Ek; intros H.
    + cbn [list_ascii_of_string In] in H; destruct H as [<-|[]]; auto.
    + destruct (percent_chars _ _ H); auto.
Qed.

(** The encoded query reads back as the query itself: the upstream
    receives what the caller sent, byte for byte. *)
Lemma percent_decode_encodeURIComponent (s : string) :
  percent_decode (encodeURIComponent s) = Some s.
Proof.
  unfold encodeURIComponent.
  set (keep := fun c : ascii => is_alnum c || is_one_of "-_.!~*'()" c).
  induction s as [|c s IH]; [reflexivity|].
  cbn [encode_with];
    destruct c as [[] [] [] [] [] [] [] []]; cbn; rewrite IH; reflexivity.
Qed.


(** The conversions throw nothing but a [TypeError]. *)
Lemma ToString_throws (v : jsval) (e : exn) :
  ToString v = Throw e -> exists m, e = TypeError m.
Proof.
  revert v e; fix IH 1; intros [ | |b|x|s|items|fields] e; cbn;
    try discriminate.
  - induction items as [|x rest IHrest]; [discriminate|].
    pose proof (IH x) as Hx.
    destruct (match x with
              | JUndefined | JNull => Normal ""
              | _ => ToString x
              end) as [sx|ex] eqn:Ex.
    + destruct rest as [|y rest]; [discriminate|].
      match goal with
      | |- match ?j with _ => _ end = _ -> _ => destruct j eqn:Ej
      end; [discriminate|].
      intros [= <-]; exact (IHrest eq_refl).
    + intros [= <-]; apply (Hx ex); destruct x; try discriminate Ex; exact Ex.
  - destruct (has_key "toString" fields); [|discriminate].
    intros [= <-]; eauto.
Qed.

Lemma ToNumber_throws (v : jsval) (e : exn) :
  ToNumber v = Throw e -> exists m, e = TypeError m.
Proof.
  destruct v; try discriminate; cbn [ToNumber];
    (destruct (ToString _) eqn:E; [discriminate|]);
    intros [= <-]; exact (ToString_throws _ _ E).
Qed.

(** Number::toString and StringToNumber on known values. *)
Example number_strings :
  map Number_toString
    [number_of_decimal false 15007 (-1);
     SFadd prec emax (number_of_decimal false 1 (-1))
       (number_of_decimal false 2 (-1));
     number_of_Z (2 ^ 69); number_of_decimal false 1 21;
     number_of_decimal false 1 (-7); number_of_decimal true 5 (-324);
     Math_floor (number_of_decimal true 5 (-1)); S754_zero true]
  = ["1500.7"; "0.30000000000000004"; "590295810358705700000"; "1e+21";
     "1e-7"; "-5e-324"; "-1"; "0"].
Proof. vm_compute; reflexivity. Qed.

Example string_numbers :
  map (fun s => Number_toString (StringToNumber s))
    ["abc"; ""; "  12.5 "; "0x1F"; "1e3"; ".5"; "5."; "."; "-Infinity";
     "12px"; "1_000"]
  = ["NaN"; "0"; "12.5"; "31"; "1000"; "0.5"; "5"; "NaN"; "-Infinity";
     "NaN"; "NaN"].
Proof. vm_compute; reflexivity. Qed.

Example conversions :
  ToString (JArr [JNum (number_of_decimal false 15 (-1)); JNull; JStr "a";
                  JArr [JBool true]; JObj []])
  = Normal "1.5,,a,true,[object Object]"
  /\ ToNumber (JArr []) = Normal pos_zero
  /\ ToNumber (JObj []) = Normal NaN
  /\ ToNumber (JObj [("toString", JNull)])
     = Throw (TypeError "Cannot convert object to primitive value")
  /\ encodeURIComponent "a&b c/d" = "a%26b%20c%2Fd"
  /\ base64 "id:secret" = "aWQ6c2VjcmV0".
Proof. repeat split; vm_compute; reflexivity. Qed.

(** ** Missing token *)




(** ** The forwarded token *)

(** C4, as amended.  Whenever a resource proxy handler issues its outbound
    call for a request with an Authorization header, the call carries the
    header [Authorization: Bearer <token>] where the token is the incoming
    header value with the first occurrence of ["Bearer "] removed, wherever
    it stands.  That is the value without its prefix when it starts with
    ["Bearer "], and the whole value when ["Bearer "] occurs nowhere in
    it. *)
Theorem forwarded_token (e : endpoint) (up : upstream_call -> settlement)
    (req : request) (h : string) :
  authorization req = Some h ->
  (forall c, In c (outbound (serve (proxy e) up req)) ->
     header "Authorization" (uc_headers c)
     = Some ("Bearer " ++ replace "Bearer " "" h))
  /\ (forall t, h = "Bearer " ++ t -> replace "Bearer " "" h = t)
  /\ (includes h "Bearer " = false -> replace "Bearer " "" h = h).
Proof.
  intros H; split; [|split].
  - intros c; destruct e; run; cbv [destructure throw ret]; rewrite H; run;
      intros Hin; cases;
      solve [ now destruct Hin
            | destruct Hin as [<-|[]]; cbn; rewrite ?append_empty;
              reflexivity ].
  - intros t ->; apply (replace_prefix "Bearer " "" t).
  - apply replace_absent.
Qed.

Lemma forwarded_token_witness :
  outbound (serve (proxy Pause) (always (Reply 204 (JStr "")))
              (request_with (Some "Bearer BQDtoken") [] []))
  = [{| uc_method := PUT;
        uc_url := "https://api.spotify.com/v1/me/player/pause";
        uc_data := Some (JObj []);
        uc_headers := [("Authorization", "Bearer BQDtoken")] |}]
  /\ header "Authorization" [("Authorization", "Bearer BQDtoken")]
     = Some ("Bearer " ++ replace "Bearer " "" "Bearer BQDtoken").
Proof.
  split; [reflexivity|].
  apply (proj1 (forwarded_token Pause (always (Reply 204 (JStr "")))
                  (request_with (Some "Bearer BQDtoken") [] [])
                  "Bearer BQDtoken" eq_refl)
           {| uc_method := PUT;
              uc_url := "https://api.spotify.com/v1/me/player/pause";
              uc_data := Some (JObj []);
              uc_headers := [("Authorization", "Bearer BQDtoken")] |}).
  left; reflexivity.
Defined.

(** C4, as stated, fails: the header value ["Basic Bearer abc"] does not
    start with ["Bearer "], so the stated token is the whole value, but the
    handler forwards ["Basic abc"]. *)
Lemma prefix_stripping_counterexample :
  strip_prefix "Bearer " "Basic Bearer abc" = None
  /\ prefix_stripped "Basic Bearer abc" = "Basic Bearer abc"
  /\ outbound (serve (proxy Playlists) (always (Reply 200 (JObj [])))
                 (request_with (Some "Basic Bearer abc") [] []))
     = [{| uc_method := GET;
           uc_url := "https://api.spotify.com/v1/me/playlists?limit=50";
           uc_data := None;
           uc_headers := [("Authorization", "Bearer Basic abc")] |}]
  /\ header "Authorization" [("Authorization", "Bearer Basic abc")]
     <> Some ("Bearer " ++ prefix_stripped "Basic Bearer abc").
Proof. repeat split; try reflexivity; discriminate. Qed.

(** ** Upstream failures *)



(** ** The OAuth callback *)

Lemma lookup_absent (k : string) (fields : list (string * jsval)) :
  has_key k fields = false -> lookup k fields = JUndefined.
Proof.
  induction fields as [|[k' v] fields IH]; cbn; [reflexivity|].
  destruct (String.eqb k k'); [discriminate | exact IH].
Qed.







(** For [/callback?error[toString]=x] the query parser yields an object
    whose own [toString] is not callable: the template literal throws and
    the handler sends no redirect. *)
Example callback_unconvertible_error :
  serve (callback local_config) (always (NoReply "unreachable"))
    (request_with None [("error", JObj [("toString", JStr "x")])] [])
  = (Throw (TypeError "Cannot convert object to primitive value"),
     {| upstream := always (NoReply "unreachable");
        calls := [];
        statusCode := 200;
        responses := [];
        console :=
          [Error [JStr "❌ Auth error:"; JObj [("toString", JStr "x")]]] |}).
Proof. reflexivity. Qed.

(** ** Playback state *)

(** An upstream answer with status 204 is a 2xx answer: axios resolves, the
    [catch] block and its 204 test are not reached, and the handler relays
    the body of the answer as it is. *)
Lemma current_relays_no_content (up : upstream_call -> settlement)
    (req : request) (t : string) (c : upstream_call) (d : jsval) :
  bearer req = Some t ->
  outbound (serve (proxy Current) up req) = [c] ->
  up c = Reply 204 d ->
  replies (serve (proxy Current) up req) = [SentJson 200 d].
Proof.
  intros Hb Hc Hup; destruct (bearer_token _ _ Hb) as [Ht Hne].
  revert Hc; run; rewrite Ht; norm.
  rewrite (proj2 (String.eqb_neq t "") Hne); norm; rewrite ?append_empty.
  intros Hc; cases; injection Hc as <-; settle up; try discriminate;
    reflexivity.
Qed.

(** C3, at the failing input.  [GET /api/current] with the header
    [Authorization: Bearer T], the upstream answering 204 with an empty
    body: the handler answers 200 with the empty string as its body, which
    is not the empty playback state. *)
Theorem current_no_content_not_normalized :
  replies (serve (proxy Current) (always (Reply 204 (JStr "")))
             (request_with (Some "Bearer T") [] []))
  = [SentJson 200 (JStr "")]
  /\ JStr "" <> nothing_playing.
Proof. split; [reflexivity | discriminate]. Qed.

(** ** Seek and volume *)

(** [floor_Z] is the floor of [(-1)^s * m * 2^e]. *)
Lemma floor_Z_spec (s : bool) (m : positive) (e : Z) :
  let v := if s then Zneg m else Zpos m in
  (0 <= e -> floor_Z s m e = v * 2 ^ e)
  /\ (e < 0 ->
      floor_Z s m e * 2 ^ (- e) <= v < (floor_Z s m e + 1) * 2 ^ (- e)).
Proof.
  intros v; unfold floor_Z; fold v; split; intros He.
  - now rewrite Z.shiftl_mul_pow2.
  - rewrite <- (Z.opp_involutive e) at 1 3.
    rewrite Z.shiftl_opp_r, Z.shiftr_div_pow2 by lia.
    assert (0 < 2 ^ (- e)) by (apply Z.pow_pos_nonneg; lia).
    pose proof (Z.mul_div_le v (2 ^ (- e)) ltac:(lia)).
    pose proof (Z.mul_succ_div_gt v (2 ^ (- e)) ltac:(lia)).
    lia.
Qed.

(** On a number that is not negative, rounding down and truncating agree. *)
Lemma floor_is_trunc_when_not_negative (x : number) :
  is_negative x = false -> Math_floor x = Math_trunc x.
Proof.
  destruct x as [s|s| |s m e]; try reflexivity.
  cbn [is_negative]; intros ->; reflexivity.
Qed.

(** C5, as amended.  For a request with a bearer token whose [position_ms]
    ([/api/seek]) or [volume_percent] ([/api/volume]) is a number, the one
    outbound call is a PUT whose URL ends with the floor of that number
    (the greatest integer not above it).  The floor is the truncation of
    every number that is not negative. *)
Theorem numeric_value_is_floored (e : endpoint) (field prefix message : string)
    (up : upstream_call -> settlement) (req : request) (t : string)
    (x : number) :
  numeric_route e field prefix message ->
  bearer req = Some t ->
  get (body req) field = JNum x ->
  (exists c,
     outbound (serve (proxy e) up req) = [c]
     /\ uc_method c = PUT
     /\ uc_url c = prefix ++ Number_toString (Math_floor x))
  /\ (is_negative x = false -> Math_floor x = Math_trunc x).
Proof.
  intros Hr Hb Hx; destruct (bearer_token _ _ Hb) as [Ht Hne].
  assert (Hrd : readable (body req) = true)
    by (apply (get_readable _ field); rewrite Hx; discriminate).
  split; [|apply floor_is_trunc_when_not_negative].
  destruct Hr; run; rewrite (destructure_readable _ _ Hrd); run;
    rewrite Ht, Hx; norm;
    rewrite (proj2 (String.eqb_neq t "") Hne); norm;
    eexists; (split; [cases; reflexivity|]);
    (split; [reflexivity|]); cbn [uc_url]; now rewrite ?append_empty.
Qed.

Lemma numeric_value_is_floored_witness :
  exists c,
    outbound (serve (proxy Seek) (always (Reply 204 (JStr "")))
                (request_with (Some "Bearer T") []
                   [("position_ms", JNum (number_of_decimal false 15007 (-1)))]))
    = [c]
    /\ uc_method c = PUT
    /\ uc_url c
       = "https://api.spotify.com/v1/me/player/seek?position_ms="
         ++ Number_toString (Math_floor (number_of_decimal false 15007 (-1))).
Proof.
  exact (proj1 (numeric_value_is_floored Seek _ _ _
                  (always (Reply 204 (JStr "")))
                  (request_with (Some "Bearer T") []
                     [("position_ms",
                       JNum (number_of_decimal false 15007 (-1)))])
                  "T" (number_of_decimal false 15007 (-1))
                  numeric_seek eq_refl eq_refl)).
Defined.

(** The example of the specification: 1500.7 is sent as 1500. *)
Example seek_1500_7 :
  Number_toString (number_of_decimal false 15007 (-1)) = "1500.7"
  /\ map uc_url
       (outbound (serve (proxy Seek) (always (Reply 204 (JStr "")))
                    (request_with (Some "Bearer T") []
                       [("position_ms",
                         JNum (number_of_decimal false 15007 (-1)))])))
     = ["https://api.spotify.com/v1/me/player/seek?position_ms=1500"].
Proof. split; vm_compute; reflexivity. Qed.

(** C5, as stated, fails on a negative fraction: the truncation of -1.5 is
    -1, but [/api/seek] sends -2 upstream. *)
Lemma negative_fraction_counterexample :
  Number_toString (number_of_decimal true 15 (-1)) = "-1.5"
  /\ Number_toString (Math_trunc (number_of_decimal true 15 (-1))) = "-1"
  /\ map uc_url
       (outbound (serve (proxy Seek) (always (Reply 204 (JStr "")))
                    (request_with (Some "Bearer T") []
                       [("position_ms",
                         JNum (number_of_decimal true 15 (-1)))])))
     = ["https://api.spotify.com/v1/me/player/seek?position_ms=-2"]
  /\ "https://api.spotify.com/v1/me/player/seek?position_ms=-2"
     <> "https://api.spotify.com/v1/me/player/seek?position_ms="
        ++ Number_toString (Math_trunc (number_of_decimal true 15 (-1))).
Proof. repeat split; try (vm_compute; reflexivity); vm_compute; discriminate. Qed.

(** C10, as amended.  On [/api/seek] and [/api/volume], for a request with
    a bearer token whose [req.body] can be read, the 400 rejection for a
    missing parameter is sent exactly when the body field is [undefined],
    and then nothing is called.  Any other value, [null] and non-numeric
    values included, passes.  When its conversion to a number gives [x]
    (that of [null] gives 0, that of a non-numeric string NaN), the floor
    of [x] is sent upstream, so [null] is sent as [0] and a non-numeric
    string as [NaN].  When its conversion throws, nothing is called and the
    failure response of the route is sent with status 500.  When
    [req.body] cannot be read ([undefined] or [null]), the handler throws
    a [TypeError] before any validation: nothing is sent, nothing is
    called. *)
Theorem numeric_field_validation (e : endpoint)
    (field prefix message : string) (up : upstream_call -> settlement)
    (req : request) (t : string) :
  numeric_route e field prefix message ->
  bearer req = Some t ->
  (readable (body req) = true ->
   (replies (serve (proxy e) up req)
    = [SentJson 400 (JObj [("error", JStr message)])]
    <-> get (body req) field = JUndefined)
   /\ (get (body req) field = JUndefined ->
       outbound (serve (proxy e) up req) = [])
   /\ (forall x,
         get (body req) field <> JUndefined ->
         ToNumber (get (body req) field) = Normal x ->
         exists c,
           outbound (serve (proxy e) up req) = [c]
           /\ uc_url c = prefix ++ Number_toString (Math_floor x))
   /\ (get (body req) field = JNull ->
       exists c,
         outbound (serve (proxy e) up req) = [c]
         /\ uc_url c = prefix ++ "0")
   /\ (forall s,
         get (body req) field = JStr s -> StringToNumber s = NaN ->
         exists c,
           outbound (serve (proxy e) up req) = [c]
           /\ uc_url c = prefix ++ "NaN")
   /\ (forall err,
         ToNumber (get (body req) field) = Throw err ->
         outbound (serve (proxy e) up req) = []
         /\ replies (serve (proxy e) up req)
            = [SentJson 500 (JObj [("error", JStr (failure_message e None));
                                   ("details", JUndefined)])]))
  /\ (readable (body req) = false ->
      (exists m, fst (serve (proxy e) up req) = Throw (TypeError m))
      /\ replies (serve (proxy e) up req) = []
      /\ outbound (serve (proxy e) up req) = []).
Proof.
  intros Hr Hb; destruct (bearer_token _ _ Hb) as [Ht Hne].
  split; [intros Hrd|intros Hrd].
  2: { destruct Hr; run; rewrite (destructure_unreadable _ _ Hrd); run;
         eauto. }
  assert (Hsent : forall x,
            get (body req) field <> JUndefined ->
            ToNumber (get (body req) field) = Normal x ->
            exists c,
              outbound (serve (proxy e) up req) = [c]
              /\ uc_url c = prefix ++ Number_toString (Math_floor x)).
  { intros x Hv Hx; destruct Hr; run; rewrite (destructure_readable _ _ Hrd);
      run; rewrite Ht; norm;
      rewrite (proj2 (String.eqb_neq t "") Hne); norm;
      rewrite (is_undefined_false _ Hv), Hx; norm;
      eexists; (split; [cases; reflexivity|]); cbn [uc_url];
      now rewrite ?append_empty. }
  split; [split|split; [|split; [exact Hsent|split; [|split]]]].
  - clear Hsent; intros H.
    destruct (is_undefined (get (body req) field)) eqn:Eu;
      [now destruct (get (body req) field)|].
    exfalso; revert H; destruct Hr; run;
      rewrite (destructure_readable _ _ Hrd); run; rewrite Ht; norm;
      rewrite (proj2 (String.eqb_neq t "") Hne), Eu; norm;
      intros H; cases; discriminate H.
  - intros Hv; destruct Hr; run; rewrite (destructure_readable _ _ Hrd);
      run; rewrite Ht, Hv; norm;
      rewrite (proj2 (String.eqb_neq t "") Hne); reflexivity.
  - intros Hv; destruct Hr; run; rewrite (destructure_readable _ _ Hrd);
      run; rewrite Ht, Hv; norm;
      rewrite (proj2 (String.eqb_neq t "") Hne); reflexivity.
  - intros Hv; apply (Hsent pos_zero); rewrite Hv; [discriminate|reflexivity].
  - intros s Hv Hs; apply (Hsent NaN); rewrite Hv; [discriminate|].
    cbn [ToNumber]; now rewrite Hs.
  - clear Hsent; intros err Hx.
    assert (Hv : is_undefined (get (body req) field) = false)
      by (destruct (get (body req) field); try reflexivity;
          discriminate Hx).
    destruct (ToNumber_throws _ _ Hx) as [m ->].
    destruct Hr; run; rewrite (destructure_readable _ _ Hrd); run;
      rewrite Ht; norm;
      rewrite (proj2 (String.eqb_neq t "") Hne), Hv, Hx; norm;
      split; reflexivity.
Qed.

Lemma numeric_field_validation_witness :
  exists c,
    outbound (serve (proxy Volume) (always (Reply 204 (JStr "")))
                (request_with (Some "Bearer T") []
                   [("volume_percent", JStr "loud")]))
    = [c]
    /\ uc_url c
       = "https://api.spotify.com/v1/me/player/volume?volume_percent="
         ++ "NaN".
Proof.
  refine (proj1 (proj2 (proj2 (proj2 (proj2
            (proj1 (numeric_field_validation Volume _ _ _
                      (always (Reply 204 (JStr "")))
                      (request_with (Some "Bearer T") []
                         [("volume_percent", JStr "loud")])
                      "T" numeric_volume eq_refl) eq_refl)))))
            "loud" eq_refl _).
  vm_compute; reflexivity.
Defined.

(** C10, as stated, fails: the field [{toString: null}] is not [undefined]
    and not numeric, so it passes validation, but its conversion to a
    number throws ([toString] is not callable and [valueOf] returns the
    object): nothing is sent upstream. *)
Lemma unconvertible_value_counterexample :
  is_undefined (JObj [("toString", JNull)]) = false
  /\ ToNumber (JObj [("toString", JNull)])
     = Throw (TypeError "Cannot convert object to primitive value")
  /\ outbound (serve (proxy Seek) (always (Reply 204 (JStr "")))
                 (request_with (Some "Bearer T") []
                    [("position_ms", JObj [("toString", JNull)])]))
     = []
  /\ replies (serve (proxy Seek) (always (Reply 204 (JStr "")))
                (request_with (Some "Bearer T") []
                   [("position_ms", JObj [("toString", JNull)])]))
     = [SentJson 500 (JObj [("error", JStr "Seek failed");
                            ("details", JUndefined)])].
Proof. repeat split. Qed.

(** ** Search *)




(** The example of the specification. *)
Example search_daft_punk :
  serve (proxy Search) (always (Reply 200 (JObj [("tracks", JArr [])])))
    (request_with (Some "Bearer T") [("q", JStr "daft punk")] [])
  = (Normal tt,
     {| upstream := always (Reply 200 (JObj [("tracks", JArr [])]));
        calls :=
          [{| uc_method := GET;
              uc_url := "https://api.spotify.com/v1/search?q=daft%20punk&type=track,album,artist&limit=20";
              uc_data := None;
              uc_headers := [("Authorization", "Bearer T")] |}];
        statusCode := 200;
        responses := [SentJson 200 (JObj [("tracks", JArr [])])];
        console :=
          [Log [JStr "✅ Search completed for:"; JStr "daft punk"]] |}).
Proof. reflexivity. Qed.

(** ** Play *)





(** The examples of the specification. *)
Example play_examples :
  map uc_data
    (outbound (serve (proxy Play) (always (Reply 204 (JStr "")))
                 (request_with (Some "Bearer T") []
                    [("uri", JStr "spotify:track:123")])))
  = [Some (JObj [("uris", JArr [JStr "spotify:track:123"])])]
  /\ map uc_data
       (outbound (serve (proxy Play) (always (Reply 204 (JStr "")))
                    (request_with (Some "Bearer T") []
                       [("uri", JStr "spotify:playlist:xyz")])))
     = [Some (JObj [("context_uri", JStr "spotify:playlist:xyz")])]
  /\ map uc_data
       (outbound (serve (proxy Play) (always (Reply 204 (JStr "")))
                    (request_with (Some "Bearer T") [] [])))
     = [Some (JObj [])].
Proof. repeat split. Qed.

(** * Further properties of the handlers *)

(** ** Every request gets one answer *)



(** The callback handler issues at most one outbound call, and only to the
    token endpoint.  When it completes it has sent exactly one redirect,
    for every request; it never sends a JSON body.  It throws only when the
    error parameter cannot be converted to a string, and then before
    calling or sending anything. *)
Theorem callback_answers_by_redirect (cfg : config)
    (up : upstream_call -> settlement) (req : request) :
  (List.length (outbound (serve (callback cfg) up req)) <= 1)%nat
  /\ (forall c, In c (outbound (serve (callback cfg) up req)) ->
        uc_method c = POST
        /\ uc_url c = "https://accounts.spotify.com/api/token")
  /\ (fst (serve (callback cfg) up req) = Normal tt ->
      exists url, replies (serve (callback cfg) up req)
                  = [SentRedirect 302 url])
  /\ (forall err,
        fst (serve (callback cfg) up req) = Throw err ->
        ToString (lookup "error" (query req)) = Throw err
        /\ replies (serve (callback cfg) up req) = []
        /\ outbound (serve (callback cfg) up req) = []).
Proof.
  run; cbv [destructure throw ret]; cases;
    (split; [cbn [List.length]; lia|]);
    (split; [intros c Hin; (destruct Hin as [<-|[]] || destruct Hin);
             split; reflexivity|]);
    (split; [intros H; try discriminate H; eauto|]);
    intros err H; try discriminate H; injection H as <-; auto.
Qed.

Lemma callback_answers_by_redirect_witness :
  exists url,
    replies (serve (callback local_config) (always (NoReply "ETIMEDOUT"))
               (request_with None [("code", JArr [JStr "a"; JStr "b"])] []))
    = [SentRedirect 302 url].
Proof.
  exact (proj1 (proj2 (proj2 (callback_answers_by_redirect local_config
                                (always (NoReply "ETIMEDOUT"))
                                (request_with None
                                   [("code", JArr [JStr "a"; JStr "b"])] []))))
           eq_refl).
Defined.

(** ** Successful calls *)



(** ** Which requests have no token *)

(** The 401 answer [No token provided] is sent exactly for the requests
    whose Authorization header is absent, empty, or the bare scheme
    ["Bearer "] (every other header value, whatever it is, counts as a
    token), provided the handler gets as far as the token test: on play,
    seek and volume, [req.body] must be readable. *)
Theorem no_token_exactly_when (e : endpoint)
    (up : upstream_call -> settlement) (req : request) :
  replies (serve (proxy e) up req)
  = [SentJson 401 (JObj [("error", JStr "No token provided")])]
  <-> (authorization req = None
       \/ authorization req = Some ""
       \/ authorization req = Some "Bearer ")
      /\ (reads_body e = false \/ readable (body req) = true).
Proof.
  assert (Hbody : reads_body e = true -> readable (body req) = false ->
                  replies (serve (proxy e) up req) = []).
  { intros He Hrd; destruct e; try discriminate He; run;
      rewrite (destructure_unreadable _ _ Hrd); reflexivity. }
  destruct (reads_body e) eqn:He, (readable (body req)) eqn:Hrd;
    try (rewrite (Hbody eq_refl eq_refl); split;
         [discriminate | intros [_ [H|H]]; discriminate H]);
    (split; [intros H; split; [|auto] | intros [H _]]);
    (destruct (authorization req) as [h|] eqn:Ha;
     [pose proof (replace_to_empty "Bearer " h) as Hr;
      destruct (String.eqb_spec (replace "Bearer " "" h) "") as [E|E]|]).
  all: try (destruct (proj1 Hr E) as [->| ->]; now auto).
  all: try (left; reflexivity).
  all: try (exfalso; revert H; destruct e; try discriminate He; run;
            rewrite ?(destructure_readable _ _ Hrd); run; rewrite Ha; norm;
            rewrite (proj2 (String.eqb_neq _ "") E); norm;
            cbv [destructure throw ret]; intros H; cases; discriminate H).
  all: try (destruct e; try discriminate He; run;
            rewrite ?(destructure_readable _ _ Hrd); run; rewrite Ha; norm;
            rewrite ?E; reflexivity).
  all: destruct H as [H|[H|H]]; try discriminate H; injection H as ->;
    exfalso; apply E; apply Hr; auto.
Qed.

Lemma no_token_exactly_when_witness :
  replies (serve (proxy Pause) (always (Reply 204 (JStr "")))
             (request_with (Some "Bearer ") [] []))
  = [SentJson 401 (JObj [("error", JStr "No token provided")])].
Proof.
  apply (proj2 (no_token_exactly_when Pause (always (Reply 204 (JStr "")))
                  (request_with (Some "Bearer ") [] []))).
  split; [right; right; reflexivity | left; reflexivity].
Defined.

(** ** Where the calls go *)

(** Whatever the request holds, a resource proxy handler calls nothing but
    the Spotify Web API: the URL of every outbound call starts with
    [https://api.spotify.com/v1/]. *)
Theorem calls_stay_on_the_api (e : endpoint)
    (up : upstream_call -> settlement) (req : request) (c : upstream_call) :
  In c (outbound (serve (proxy e) up req)) ->
  exists rest, uc_url c = "https://api.spotify.com/v1/" ++ rest.
Proof.
  destruct e; run; cbv [destructure throw ret]; intros Hin; cases;
    solve [ now destruct Hin
          | destruct Hin as [<-|[]]; eexists; reflexivity ].
Qed.

Lemma calls_stay_on_the_api_witness :
  exists rest,
    "https://api.spotify.com/v1/search?q=..%2F..%2Fadmin%3F&type=track,album,artist&limit=20"
    = "https://api.spotify.com/v1/" ++ rest.
Proof.
  apply (calls_stay_on_the_api Search (always (NoReply "down"))
           (request_with (Some "Bearer T") [("q", JStr "../../admin?")] [])
           {| uc_method := GET;
              uc_url := "https://api.spotify.com/v1/search?q=..%2F..%2Fadmin%3F&type=track,album,artist&limit=20";
              uc_data := None;
              uc_headers := [("Authorization", "Bearer T")] |}).
  left; reflexivity.
Defined.

(** ** Unusable input *)

(** On [/api/play], a uri that is a number, [true] or an object (a value
    without an [includes] method) makes the handler fail before it calls
    anything: the answer is 500 with the message [Playback failed] and no
    details. *)
Theorem play_rejects_non_text_uri (up : upstream_call -> settlement)
    (req : request) (t : string) :
  bearer req = Some t ->
  ToBoolean (get (body req) "uri") = true ->
  (forall s, get (body req) "uri" <> JStr s) ->
  (forall items, get (body req) "uri" <> JArr items) ->
  outbound (serve (proxy Play) up req) = []
  /\ replies (serve (proxy Play) up req)
     = [SentJson 500 (JObj [("error", JStr "Playback failed");
                            ("details", JUndefined)])].
Proof.
  intros Hb Hu Hs Hl; destruct (bearer_token _ _ Hb) as [Ht Hne].
  assert (Hrd : readable (body req) = true).
  { apply (get_readable _ "uri"); intros E; rewrite E in Hu; discriminate Hu. }
  run; rewrite (destructure_readable _ _ Hrd); run.
  rewrite Ht, Hu; norm; rewrite (proj2 (String.eqb_neq t "") Hne); norm.
  destruct (get (body req) "uri") as [ | |b|x|s|items|fields];
    try discriminate Hu;
    solve [ split; reflexivity
          | now elim (Hs s) | now elim (Hl items) ].
Qed.

Lemma play_rejects_non_text_uri_witness :
  outbound (serve (proxy Play) (always (Reply 204 (JStr "")))
              (request_with (Some "Bearer T") []
                 [("uri", JNum (number_of_Z 42))]))
  = []
  /\ replies (serve (proxy Play) (always (Reply 204 (JStr "")))
                (request_with (Some "Bearer T") []
                   [("uri", JNum (number_of_Z 42))]))
     = [SentJson 500 (JObj [("error", JStr "Playback failed");
                            ("details", JUndefined)])].
Proof.
  apply (play_rejects_non_text_uri (always (Reply 204 (JStr "")))
           (request_with (Some "Bearer T") [] [("uri", JNum (number_of_Z 42))])
           "T" eq_refl eq_refl); discriminate.
Defined.

(** On [/callback], a 2xx answer of the token endpoint whose body is
    [null] cannot be read: the handler treats it like a failed exchange
    and redirects to [<frontend>/?error=auth_failed]. *)
Theorem callback_unreadable_answer (cfg : config)
    (up : upstream_call -> settlement) (req : request) (c : upstream_call)
    (st : Z) :
  outbound (serve (callback cfg) up req) = [c] ->
  up c = Reply st JNull ->
  replies (serve (callback cfg) up req)
  = [SentRedirect 302 (FRONTEND_URL cfg ++ "/?error=auth_failed")].
Proof.
  intros Hc Hup; revert Hc; run; cbv [destructure throw ret]; intros Hc;
    cases; try discriminate Hc; injection Hc as <-; settle up;
    norm; now rewrite ?append_empty.
Qed.

Lemma callback_unreadable_answer_witness :
  replies (serve (callback local_config) (always (Reply 200 JNull))
             (request_with None [("code", JStr "abc123")] []))
  = [SentRedirect 302 "http://localhost:3000/?error=auth_failed"].
Proof.
  exact (callback_unreadable_answer local_config (always (Reply 200 JNull))
           (request_with None [("code", JStr "abc123")] [])
           {| uc_method := POST;
              uc_url := "https://accounts.spotify.com/api/token";
              uc_data :=
                Some (JStr "code=abc123&redirect_uri=http%3A%2F%2Flocalhost%3A3000%2Fcallback&grant_type=authorization_code");
              uc_headers :=
                [("Authorization", "Basic aWQ6c2VjcmV0");
                 ("Content-Type", "application/x-www-form-urlencoded")] |}
           200 eq_refl eq_refl).
Defined.

(** ** What the search query can do *)

(** The query of [/api/search] cannot add or end parameters of the
    upstream URL: between [?q=] and [&type=track,album,artist&limit=20]
    stands the encoded query, in which none of [& = ? # / +] nor a space
    occurs. *)
Theorem search_query_stays_one_parameter (up : upstream_call -> settlement)
    (req : request) (t s : string) :
  bearer req = Some t ->
  ToBoolean (lookup "q" (query req)) = true ->
  ToString (lookup "q" (query req)) = Normal s ->
  exists c encoded,
    outbound (serve (proxy Search) up req) = [c]
    /\ uc_url c = "https://api.spotify.com/v1/search?q=" ++ encoded
                  ++ "&type=track,album,artist&limit=20"
    /\ forall ch, In ch (list_ascii_of_string encoded) ->
                  ~ In ch query_delimiters.
Proof.
  intros Hb Hq Hs; destruct (bearer_token _ _ Hb) as [Ht Hne].
  exists {| uc_method := GET;
            uc_url := "https://api.spotify.com/v1/search?q="
                      ++ encodeURIComponent s
                      ++ "&type=track,album,artist&limit=20";
            uc_data := None;
            uc_headers := [("Authorization", "Bearer " ++ t)] |},
         (encodeURIComponent s).
  split; [|split; [reflexivity|]].
  - run; rewrite Ht, Hq; norm; rewrite (proj2 (String.eqb_neq t "") Hne); norm.
    rewrite Hs; norm; rewrite ?append_empty; cases; reflexivity.
  - intros ch Hin Hd.
    destruct (encode_with_chars _ _ _ _ Hin) as [H|[H|[H|(c & r & H & _)]]];
      [| | |discriminate H];
      cbn in Hd; repeat (destruct Hd as [<-|Hd]; [discriminate H|]);
      exact Hd.
Qed.

Lemma search_query_stays_one_parameter_witness :
  exists c encoded,
    outbound (serve (proxy Search) (always (NoReply "down"))
                (request_with (Some "Bearer T")
                   [("q", JStr "a&limit=50#")] []))
    = [c]
    /\ uc_url c = "https://api.spotify.com/v1/search?q=" ++ encoded
                  ++ "&type=track,album,artist&limit=20"
    /\ forall ch, In ch (list_ascii_of_string encoded) ->
                  ~ In ch query_delimiters.
Proof.
  exact (search_query_stays_one_parameter (always (NoReply "down"))
           (request_with (Some "Bearer T") [("q", JStr "a&limit=50#")] [])
           "T" "a&limit=50#" eq_refl eq_refl eq_refl).
Defined.

(** The query of [/api/search] reaches the upstream as it was sent:
    decoding the escapes of the part between [?q=] and the fixed
    parameters gives back the query, byte for byte. *)
Theorem search_query_round_trip (up : upstream_call -> settlement)
    (req : request) (t s : string) :
  bearer req = Some t ->
  ToBoolean (lookup "q" (query req)) = true ->
  ToString (lookup "q" (query req)) = Normal s ->
  exists c encoded,
    outbound (serve (proxy Search) up req) = [c]
    /\ uc_url c = "https://api.spotify.com/v1/search?q=" ++ encoded
                  ++ "&type=track,album,artist&limit=20"
    /\ percent_decode encoded = Some s.
Proof.
  intros Hb Hq Hs; destruct (bearer_token _ _ Hb) as [Ht Hne].
  exists {| uc_method := GET;
            uc_url := "https://api.spotify.com/v1/search?q="
                      ++ encodeURIComponent s
                      ++ "&type=track,album,artist&limit=20";
            uc_data := None;
            uc_headers := [("Authorization", "Bearer " ++ t)] |},
         (encodeURIComponent s).
  split; [|split; [reflexivity | apply percent_decode_encodeURIComponent]].
  run; rewrite Ht, Hq; norm; rewrite (proj2 (String.eqb_neq t "") Hne); norm.
  rewrite Hs; norm; rewrite ?append_empty; cases; reflexivity.
Qed.

Lemma search_query_round_trip_witness :
  exists c encoded,
    outbound (serve (proxy Search) (always (NoReply "down"))
                (request_with (Some "Bearer T")
                   [("q", JStr "AC/DC 100%")] []))
    = [c]
    /\ uc_url c = "https://api.spotify.com/v1/search?q=" ++ encoded
                  ++ "&type=track,album,artist&limit=20"
    /\ percent_decode encoded = Some "AC/DC 100%".
Proof.
  exact (search_query_round_trip (always (NoReply "down"))
           (request_with (Some "Bearer T") [("q", JStr "AC/DC 100%")] [])
           "T" "AC/DC 100%" eq_refl eq_refl eq_refl).
Defined.

(** The two shapes of the query built by the callback. *)
Lemma token_query (a : string) :
  URLSearchParams_toString [("access_token", a)]
  = "access_token=" ++ form_urlencode a.
Proof. reflexivity. Qed.

Lemma token_refresh_query (a r : string) :
  URLSearchParams_toString [("access_token", a); ("refresh_token", r)]
  = "access_token=" ++ form_urlencode a
    ++ "&refresh_token=" ++ form_urlencode r.
Proof.
  cbv [URLSearchParams_toString map join_with fst snd].
  change (form_urlencode "access_token") with "access_token".
  change (form_urlencode "refresh_token") with "refresh_token".
  now rewrite !append_assoc.
Qed.

Lemma form_urlencode_chars (s : string) (ch : ascii) :
  In ch (list_ascii_of_string (form_urlencode s)) ->
  ~ In ch (list_ascii_of_string "&=?#/ ").
Proof.
  intros Hin Hd.
  destruct (encode_with_chars _ _ _ _ Hin) as [H|[H|[H|(c & r & H & Hr)]]].
  1-3: cbn in Hd; repeat (destruct Hd as [<-|Hd]; [discriminate H|]);
       exact Hd.
  destruct (Ascii.eqb c " "); [|discriminate H].
  injection H as <-; destruct Hr as [<-|[]].
  cbn in Hd; repeat (destruct Hd as [Hd|Hd]; [discriminate Hd|]); exact Hd.
Qed.

(** After a successful exchange the tokens are the only parameters of the
    redirect: the query is [access_token=A], followed by
    [&refresh_token=R] when there is a refresh token, where [A] and [R]
    are the encoded tokens, in which none of [& = ? # /] nor a space
    occurs. *)
Theorem callback_tokens_stay_two_parameters (cfg : config)
    (up : upstream_call -> settlement) (req : request) (c : upstream_call)
    (st : Z) (d : jsval) (a : string) :
  outbound (serve (callback cfg) up req) = [c] ->
  up c = Reply st d -> validateStatus st = true ->
  d <> JNull -> d <> JUndefined ->
  ToString (get d "access_token") = Normal a ->
  (forall ch, In ch (list_ascii_of_string (form_urlencode a)) ->
              ~ In ch (list_ascii_of_string "&=?#/ "))
  /\ (ToBoolean (get d "refresh_token") = false ->
      replies (serve (callback cfg) up req)
      = [SentRedirect 302
           (FRONTEND_URL cfg ++ "/?access_token=" ++ form_urlencode a)])
  /\ (forall r,
        ToBoolean (get d "refresh_token") = true ->
        ToString (get d "refresh_token") = Normal r ->
        replies (serve (callback cfg) up req)
        = [SentRedirect 302
             (FRONTEND_URL cfg ++ "/?access_token=" ++ form_urlencode a
              ++ "&refresh_token=" ++ form_urlencode r)]
        /\ forall ch, In ch (list_ascii_of_string (form_urlencode r)) ->
                      ~ In ch (list_ascii_of_string "&=?#/ ")).
Proof.
  intros Hc Hup Hv Hnull Hundef Ha.
  assert (Hd : forall k, destructure d k = ret (get d k))
    by (intros k; destruct d; try reflexivity; contradiction).
  split; [apply form_urlencode_chars|].
  revert Hc; run; intros Hc.
  destruct (ToBoolean (lookup "error" (query req))) eqn:He;
    [cases; discriminate Hc|].
  destruct (negb (ToBoolean (lookup "code" (query req)))) eqn:Hcode;
    [discriminate Hc|].
  norm.
  assert (Hcall : up {| uc_method := POST;
                        uc_url := "https://accounts.spotify.com/api/token";
                        uc_data :=
                          Some (JStr (querystring_stringify
                                        [("code", lookup "code" (query req));
                                         ("redirect_uri",
                                          JStr (REDIRECT_URI cfg));
                                         ("grant_type",
                                          JStr "authorization_code")]));
                        uc_headers :=
                          [("Authorization",
                            "Basic " ++ base64 (CLIENT_ID cfg ++ ":"
                                                ++ CLIENT_SECRET cfg));
                           ("Content-Type",
                            "application/x-www-form-urlencoded")] |}
                  = Reply st d).
  { rewrite <- Hup; f_equal; revert Hc; cbv [destructure throw ret]; cases;
      intros Hc; now injection Hc. }
  clear Hc; rewrite Hcall, Hv; norm; rewrite !Hd; run; rewrite Ha; split.
  - intros Hr; rewrite Hr; norm.
    now rewrite token_query, ?append_empty.
  - intros r Hr Hs; rewrite Hr, Hs; norm.
    rewrite token_refresh_query, ?append_empty.
    split; [reflexivity | apply form_urlencode_chars].
Qed.

Lemma callback_tokens_stay_two_parameters_witness :
  replies (serve (callback local_config)
             (always (Reply 200 (JObj [("access_token", JStr "A&B");
                                       ("refresh_token", JStr "R=1 2")])))
             (request_with None [("code", JStr "abc123")] []))
  = [SentRedirect 302
       "http://localhost:3000/?access_token=A%26B&refresh_token=R%3D1+2"].
Proof.
  refine (proj1 (proj2 (proj2
            (callback_tokens_stay_two_parameters local_config
               (always (Reply 200 (JObj [("access_token", JStr "A&B");
                                         ("refresh_token", JStr "R=1 2")])))
               (request_with None [("code", JStr "abc123")] [])
               {| uc_method := POST;
                  uc_url := "https://accounts.spotify.com/api/token";
                  uc_data :=
                    Some (JStr "code=abc123&redirect_uri=http%3A%2F%2Flocalhost%3A3000%2Fcallback&grant_type=authorization_code");
                  uc_headers :=
                    [("Authorization", "Basic aWQ6c2VjcmV0");
                     ("Content-Type",
                      "application/x-www-form-urlencoded")] |}
               200 _ "A&B" eq_refl eq_refl eq_refl _ _ eq_refl))
            "R=1 2" eq_refl eq_refl)); discriminate.
Defined.

(** ** The token request *)

Lemma token_request_body (code redirect : string) :
  querystring_stringify
    [("code", JStr code); ("redirect_uri", JStr redirect);
     ("grant_type", JStr "authorization_code")]
  = "code=" ++ encodeURIComponent code
    ++ "&redirect_uri=" ++ encodeURIComponent redirect
    ++ "&grant_type=authorization_code".
Proof.
  cbv [querystring_stringify flat_map join_with map fst snd app
       encodeStringified].
  change (encodeURIComponent "code") with "code".
  change (encodeURIComponent "redirect_uri") with "redirect_uri".
  change (encodeURIComponent "grant_type") with "grant_type".
  change (encodeURIComponent "authorization_code") with "authorization_code".
  now rewrite !append_assoc.
Qed.

(** A callback request with a code (a non-empty string) and no error is
    turned into one POST to the token endpoint: a form body with the
    encoded code, the encoded redirect URI and
    [grant_type=authorization_code], under Basic authentication with
    [base64(client_id:client_secret)]. *)
Theorem callback_token_request (cfg : config)
    (up : upstream_call -> settlement) (req : request) (code : string) :
  ToBoolean (lookup "error" (query req)) = false ->
  lookup "code" (query req) = JStr code -> code <> "" ->
  outbound (serve (callback cfg) up req)
  = [{| uc_method := POST;
        uc_url := "https://accounts.spotify.com/api/token";
        uc_data :=
          Some (JStr ("code=" ++ encodeURIComponent code
                      ++ "&redirect_uri=" ++ encodeURIComponent (REDIRECT_URI cfg)
                      ++ "&grant_type=authorization_code"));
        uc_headers :=
          [("Authorization",
            "Basic " ++ base64 (CLIENT_ID cfg ++ ":" ++ CLIENT_SECRET cfg));
           ("Content-Type", "application/x-www-form-urlencoded")] |}].
Proof.
  intros He Hc Hne; rewrite <- token_request_body.
  run; rewrite He, Hc; norm; rewrite (proj2 (String.eqb_neq code "") Hne).
  norm; cbv [destructure throw ret]; cases; reflexivity.
Qed.

Lemma callback_token_request_witness :
  outbound (serve (callback local_config) (always (NoReply "down"))
              (request_with None [("code", JStr "AQB/x y")] []))
  = [{| uc_method := POST;
        uc_url := "https://accounts.spotify.com/api/token";
        uc_data :=
          Some (JStr ("code=" ++ encodeURIComponent "AQB/x y"
                      ++ "&redirect_uri="
                      ++ encodeURIComponent "http://localhost:3000/callback"
                      ++ "&grant_type=authorization_code"));
        uc_headers :=
          [("Authorization", "Basic " ++ base64 ("id" ++ ":" ++ "secret"));
           ("Content-Type", "application/x-www-form-urlencoded")] |}].
Proof.
  refine (callback_token_request local_config (always (NoReply "down"))
            (request_with None [("code", JStr "AQB/x y")] [])
            "AQB/x y" eq_refl eq_refl _).
  discriminate.
Defined.

(** ** What does not reach the caller *)

(** The client id and the client secret have no influence on what the
    callback sends to the browser or writes to the console: with the same
    frontend URL and the same upstream behaviour, two servers with
    different credentials (and redirect URIs) answer and log alike. *)
Theorem callback_hides_credentials (cfg1 cfg2 : config) (s : settlement)
    (req : request) :
  FRONTEND_URL cfg1 = FRONTEND_URL cfg2 ->
  fst (serve (callback cfg1) (always s) req)
  = fst (serve (callback cfg2) (always s) req)
  /\ replies (serve (callback cfg1) (always s) req)
     = replies (serve (callback cfg2) (always s) req)
  /\ console (snd (serve (callback cfg1) (always s) req))
     = console (snd (serve (callback cfg2) (always s) req)).
Proof.
  intros H; run; rewrite H; cbv [always destructure throw ret]; cases; auto.
Qed.

Lemma callback_hides_credentials_witness :
  replies (serve (callback local_config)
             (always (Reply 401 (JObj [("error", JStr "invalid_client")])))
             (request_with None [("code", JStr "abc123")] []))
  = replies (serve (callback {| CLIENT_ID := "other";
                                CLIENT_SECRET := "s3cr3t";
                                REDIRECT_URI := "https://example.org/callback";
                                FRONTEND_URL := "http://localhost:3000" |})
               (always (Reply 401 (JObj [("error", JStr "invalid_client")])))
               (request_with None [("code", JStr "abc123")] [])).
Proof.
  exact (proj1 (proj2 (callback_hides_credentials local_config
                         {| CLIENT_ID := "other";
                            CLIENT_SECRET := "s3cr3t";
                            REDIRECT_URI := "https://example.org/callback";
                            FRONTEND_URL := "http://localhost:3000" |}
                         (Reply 401 (JObj [("error", JStr "invalid_client")]))
                         (request_with None [("code", JStr "abc123")] [])
                         eq_refl))).
Defined.

(** The bearer token is never echoed: two requests to the same route that
    differ only in their (non-empty) tokens get, for the same upstream
    behaviour, the same response and the same console output. *)
Theorem proxy_never_echoes_token (e : endpoint) (s : settlement)
    (req1 req2 : request) (t1 t2 : string) :
  bearer req1 = Some t1 -> bearer req2 = Some t2 ->
  query req1 = query req2 -> body req1 = body req2 ->
  replies (serve (proxy e) (always s) req1)
  = replies (serve (proxy e) (always s) req2)
  /\ console (snd (serve (proxy e) (always s) req1))
     = console (snd (serve (proxy e) (always s) req2)).
Proof.
  intros H1 H2 Hq Hb.
  destruct (bearer_token _ _ H1) as [Ht1 Hn1].
  destruct (bearer_token _ _ H2) as [Ht2 Hn2].
  destruct e; run; rewrite ?Hq, ?Hb; cbv [destructure throw ret];
    try (destruct (body req2); norm; [auto | auto | ..]);
    rewrite Ht1, Ht2; norm;
    rewrite (proj2 (String.eqb_neq t1 "") Hn1),
            (proj2 (String.eqb_neq t2 "") Hn2);
    cbv [always]; cases; auto.
Qed.

Lemma proxy_never_echoes_token_witness :
  replies (serve (proxy Current) (always (Reply 401 (JStr "expired")))
             (request_with (Some "Bearer first") [] []))
  = replies (serve (proxy Current) (always (Reply 401 (JStr "expired")))
               (request_with (Some "Bearer second") [] [])).
Proof.
  exact (proj1 (proxy_never_echoes_token Current (Reply 401 (JStr "expired"))
                  (request_with (Some "Bearer first") [] [])
                  (request_with (Some "Bearer second") [] [])
                  "first" "second" eq_refl eq_refl eq_refl eq_refl)).
Defined.

(** ** The authorization URL *)

(** [/api/auth] ignores the request and calls nothing: it answers 200 with
    the authorization URL, whose query holds, in this order,
    [response_type=code], the encoded client id, the eight scopes
    separated by encoded spaces, the encoded redirect URI and
    [show_dialog=false]. *)
Theorem auth_url_is_data (cfg : config) (up : upstream_call -> settlement)
    (req : request) :
  fst (serve (auth cfg) up req) = Normal tt
  /\ outbound (serve (auth cfg) up req) = []
  /\ replies (serve (auth cfg) up req)
     = [SentJson 200
          (JObj [("auth_url",
                  JStr ("https://accounts.spotify.com/authorize?"
                        ++ "response_type=code"
                        ++ "&client_id=" ++ encodeURIComponent (CLIENT_ID cfg)
                        ++ "&scope=user-read-playback-state%20user-modify-playback-state%20user-read-currently-playing%20playlist-read-private%20user-library-read%20streaming%20user-read-email%20user-read-private"
                        ++ "&redirect_uri="
                        ++ encodeURIComponent (REDIRECT_URI cfg)
                        ++ "&show_dialog=false"))])].
Proof.
  split; [reflexivity|]; split; [reflexivity|].
  cbv [serve auth bind console_log res_json initial replies responses snd
       querystring_stringify flat_map join_with map fst snd app
       encodeStringified].
  change (encodeURIComponent "response_type") with "response_type".
  change (encodeURIComponent "code") with "code".
  change (encodeURIComponent "client_id") with "client_id".
  change (encodeURIComponent "scope") with "scope".
  change (encodeURIComponent "redirect_uri") with "redirect_uri".
  change (encodeURIComponent "show_dialog") with "show_dialog".
  match goal with
  | |- context [encodeURIComponent ?s] =>
      lazymatch s with
      | String _ _ =>
          let v := eval vm_compute in (encodeURIComponent s) in
          change (encodeURIComponent s) with v
      end
  end.
  now rewrite !append_assoc.
Qed.

(** ** Start-up *)

(** The server refuses to start exactly when the client id or the client
    secret is unset or empty.  When it starts, its credentials are the
    values of the environment, and none of its four settings is empty: an
    unset or empty [REDIRECT_URI] or [FRONTEND_URL] falls back to the local
    default. *)
Theorem load_config_spec (env : string -> option string) :
  (load_config env = None
   <-> (env "SPOTIFY_CLIENT_ID" = None \/ env "SPOTIFY_CLIENT_ID" = Some "")
       \/ (env "SPOTIFY_CLIENT_SECRET" = None
           \/ env "SPOTIFY_CLIENT_SECRET" = Some ""))
  /\ (forall cfg,
        load_config env = Some cfg ->
        env "SPOTIFY_CLIENT_ID" = Some (CLIENT_ID cfg)
        /\ env "SPOTIFY_CLIENT_SECRET" = Some (CLIENT_SECRET cfg)
        /\ CLIENT_ID cfg <> "" /\ CLIENT_SECRET cfg <> ""
        /\ REDIRECT_URI cfg <> "" /\ FRONTEND_URL cfg <> ""
        /\ (env "REDIRECT_URI" = None \/ env "REDIRECT_URI" = Some "" ->
            REDIRECT_URI cfg = "http://localhost:3000/callback")
        /\ (env "FRONTEND_URL" = None \/ env "FRONTEND_URL" = Some "" ->
            FRONTEND_URL cfg = "http://localhost:3000")).
Proof.
  unfold load_config, env_or.
  destruct (env "SPOTIFY_CLIENT_ID") as [id|];
    [destruct (String.eqb_spec id "") as [->|Hid]|];
    (destruct (env "SPOTIFY_CLIENT_SECRET") as [sec|];
     [destruct (String.eqb_spec sec "") as [->|Hsec]|]);
    cbn [String.eqb orb];
    try rewrite (proj2 (String.eqb_neq id "") Hid);
    try rewrite (proj2 (String.eqb_neq sec "") Hsec);
    cbn [orb];
    (split; [split; [intros H; try discriminate H; auto
                    | intros [[H|H]|[H|H]]; try reflexivity;
                      try discriminate H; injection H; congruence]
            | intros cfg H; try discriminate H]).
  injection H as <-; cbn [CLIENT_ID CLIENT_SECRET REDIRECT_URI FRONTEND_URL].
  repeat split; auto.
  - destruct (env "REDIRECT_URI") as [r|]; [|discriminate].
    destruct (String.eqb_spec r ""); [discriminate | assumption].
  - destruct (env "FRONTEND_URL") as [r|]; [|discriminate].
    destruct (String.eqb_spec r ""); [discriminate | assumption].
  - intros [->| ->]; reflexivity.
  - intros [->| ->]; reflexivity.
Qed.

Lemma load_config_spec_witness :
  load_config (fun k => if String.eqb k "SPOTIFY_CLIENT_ID" then Some "id"
                        else if String.eqb k "FRONTEND_URL" then Some ""
                        else None)
  = None.
Proof.
  apply (proj1 (load_config_spec _)); right; left; reflexivity.
Defined.

(** ** The number sent by seek and volume *)

(** For a finite number [(-1)^s * m * 2^e] in [position_ms] or
    [volume_percent], what the URL ends with is the Number value of the
    integer [z] that is the greatest one not above it. *)
Theorem sent_integer_is_the_floor (e : endpoint)
    (field prefix message : string) (up : upstream_call -> settlement)
    (req : request) (t : string) (s : bool) (m : positive) (ex : Z) :
  numeric_route e field prefix message ->
  bearer req = Some t ->
  get (body req) field = JNum (S754_finite s m ex) ->
  exists c z,
    outbound (serve (proxy e) up req) = [c]
    /\ uc_url c = prefix ++ Number_toString (number_of_Z z)
    /\ (0 <= ex -> z = (if s then Zneg m else Zpos m) * 2 ^ ex)
    /\ (ex < 0 ->
        z * 2 ^ (- ex) <= (if s then Zneg m else Zpos m)
        < (z + 1) * 2 ^ (- ex)).
Proof.
  intros Hr Hb Hx; destruct (bearer_token _ _ Hb) as [Ht Hne].
  pose proof (floor_Z_spec s m ex) as Hf; cbv zeta in Hf.
  assert (Hrd : readable (body req) = true).
  { apply (get_readable _ field); rewrite Hx; discriminate. }
  destruct Hr; run; rewrite (destructure_readable _ _ Hrd); run;
    rewrite Ht, Hx; norm;
    rewrite (proj2 (String.eqb_neq t "") Hne); norm;
    eexists; exists (floor_Z s m ex);
    (split; [cases; reflexivity|]);
    (split; [cbn [uc_url Math_floor]; now rewrite ?append_empty | exact Hf]).
Qed.

Lemma sent_integer_is_the_floor_witness :
  exists c z,
    outbound (serve (proxy Seek) (always (Reply 204 (JStr "")))
                (request_with (Some "Bearer T") []
                   [("position_ms", JNum (S754_finite true 3 (-1)))]))
    = [c]
    /\ uc_url c = "https://api.spotify.com/v1/me/player/seek?position_ms="
                  ++ Number_toString (number_of_Z z)
    /\ (0 <= -1 -> z = Zneg 3 * 2 ^ (-1))
    /\ (-1 < 0 -> z * 2 ^ (- -1) <= Zneg 3 < (z + 1) * 2 ^ (- -1)).
Proof.
  exact (sent_integer_is_the_floor Seek _ _ _ (always (Reply 204 (JStr "")))
           (request_with (Some "Bearer T") []
              [("position_ms", JNum (S754_finite true 3 (-1)))])
           "T" true 3 (-1) numeric_seek eq_refl eq_refl).
Defined.
